(** * ZMap postal-code availability: a shallow embedding of the scripts

    The development follows the two command-line scripts of the repository,
    [Scripts/zmap_postal_code_availability.py] and
    [Scripts/zmap_visualizing_response_rate.py].

    Layout:
    - [Py]: the fragment of Python the scripts rely on (exceptions, text
      helpers [str.strip] / [str.split], insertion-ordered dictionaries with
      default construction);
    - [Ipaddress]: the data model of the standard [ipaddress] module
      (networks, addresses, host enumeration) and the interface of the parts
      that are taken as parameters (parser, printers, reserved ranges);
    - [Env]: the outside world (files, log, external process, CSV reader,
      floating-point arithmetic) and the records exchanged with it;
    - [Availability]: the functions of [zmap_postal_code_availability.py];
    - [Visualizing]: the functions of [zmap_visualizing_response_rate.py];
    - [Concrete]: executable instances of the interfaces, used to run the
      embedded code on concrete inputs;
    - the notions used in the statements, and the theorems.

    Integers are [Z], texts are [string], the [dict] from networks to postal
    codes and the file system are [gmap]s, the set of reachable addresses is
    a [gset], and the statistics ([defaultdict(lambda: [0, 0])]) are kept in
    insertion order.  A function that can raise returns a [result]. *)

From Stdlib Require Import ZArith List String Ascii QArith Lia.
From stdpp Require Import gmap strings list pretty.

Local Open Scope string_scope.
Local Open Scope Z_scope.
Local Open Scope list_scope.

(* ===================================================================== *)
(** ** The Python fragment used by the scripts *)
(* ===================================================================== *)

Module Py.

(** Exceptions that the embedded functions can raise. *)
Inductive exn : Type :=
| FileNotFoundError (msg : string)
| IsADirectoryError (path : string)
| CalledProcessError (returncode : Z) (stderr : string)
| ValueError
| KeyError (key : string)
| ZeroDivisionError
| OverflowError
| OSError (msg : string).

(** A computation either returns a value or raises. *)
Inductive result (A : Type) : Type :=
| Ok (a : A)
| Raise (e : exn).
Arguments Ok {A} a.
Arguments Raise {A} e.

#[global] Instance result_ret : MRet result := fun A a => Ok a.
#[global] Instance result_bind : MBind result := fun A B f m =>
  match m with
  | Ok a => f a
  | Raise e => Raise e
  end.

Definition is_ok {A} (r : result A) : bool :=
  match r with Ok _ => true | Raise _ => false end.

(** *** Text.  A [str] is modelled as a [string] whose characters are the
    code points 0..255. *)

(** [str.isspace] on one character of that range. *)
Definition isspace (c : ascii) : bool :=
  let n := nat_of_ascii c in
  ((9 <=? n) && (n <=? 13) || (28 <=? n) && (n <=? 32)
   || (n =? 133) || (n =? 160))%nat.

Fixpoint lstrip (s : string) : string :=
  match s with
  | EmptyString => EmptyString
  | String c rest => if isspace c then lstrip rest else s
  end.

Fixpoint rstrip (s : string) : string :=
  match s with
  | EmptyString => EmptyString
  | String c rest =>
      match rstrip rest with
      | EmptyString => if isspace c then EmptyString else String c EmptyString
      | rest' => String c rest'
      end
  end.

(** [s.strip()] *)
Definition strip (s : string) : string := rstrip (lstrip s).

(** [s.split(sep)] for a one-character separator: every occurrence
    splits, empty fields are kept, and the empty text gives [['']]. *)
Fixpoint split (sep : ascii) (s : string) : list string :=
  match s with
  | EmptyString => [EmptyString]
  | String c rest =>
      if decide (c = sep) then EmptyString :: split sep rest
      else match split sep rest with
           | w :: ws => String c w :: ws
           | [] => [String c EmptyString]
           end
  end.

Definition newline : ascii := ascii_of_nat 10.

(** [sep.join(l)] *)
Fixpoint join (sep : string) (l : list string) : string :=
  match l with
  | [] => ""
  | [x] => x
  | x :: rest => x +:+ sep +:+ join sep rest
  end.

(** Truthiness of an optional text: [None] and [''] are falsy. *)
Definition truthy_str (o : option string) : bool :=
  match o with
  | None => false
  | Some s => negb (bool_decide (s = ""))
  end.

(** *** Dictionaries in insertion order.

    [defaultdict(lambda: [0, 0])]: keys are kept in the order of their
    first access; reading a missing key creates the default entry. *)
Section Dict.
Context {V : Type}.

Definition dict : Type := list (string * V).

Fixpoint get (k : string) (d : dict) : option V :=
  match d with
  | [] => None
  | (k', v) :: d' => if decide (k = k') then Some v else get k d'
  end.

(** [d[k] = f (d[k])] where a missing [k] is first created with
    [dflt]. *)
Fixpoint update (dflt : V) (f : V -> V) (k : string) (d : dict) : dict :=
  match d with
  | [] => [(k, f dflt)]
  | (k', v) :: d' =>
      if decide (k = k') then (k', f v) :: d'
      else (k', v) :: update dflt f k d'
  end.

Definition keys (d : dict) : list string := map fst d.

(** [sorted(d.items())]: the keys of a dictionary are distinct, so the
    entries come in the order of their keys, which are compared character
    by character. *)
Fixpoint insert_sorted (kv : string * V) (l : list (string * V))
  : list (string * V) :=
  match l with
  | [] => [kv]
  | kv' :: l' =>
      if String.ltb kv.1 kv'.1 then kv :: l else kv' :: insert_sorted kv l'
  end.

Definition sorted (d : dict) : list (string * V) :=
  foldr insert_sorted [] d.
End Dict.
Arguments dict V : clear implicits.

(** [l[:k]] *)
Definition slice_to {A} (k : Z) (l : list A) : list A :=
  if 0 <=? k then take (Z.to_nat k) l
  else take (Z.to_nat (Z.of_nat (length l) + k)) l.

End Py.
Import Py.

(* ===================================================================== *)
(** ** The [ipaddress] module *)
(* ===================================================================== *)

Module Ipaddress.

Inductive version : Type := IPv4 | IPv6.

Definition max_prefixlen (v : version) : Z :=
  match v with IPv4 => 32 | IPv6 => 128 end.

(** [IPv4Address] / [IPv6Address]: the version and the integer value. *)
Record Address : Type := mkAddress {
  addr_version : version;
  addr_int : Z
}.

(** [IPv4Network] / [IPv6Network]. *)
Record Network : Type := mkNetwork {
  net_version : version;
  network_address : Z;
  prefixlen : Z
}.

Definition hostmask (n : Network) : Z :=
  Z.ones (max_prefixlen (net_version n) - prefixlen n).

(** [broadcast_address = int(network_address) | int(hostmask)] *)
Definition broadcast_address (n : Network) : Z :=
  Z.lor (network_address n) (hostmask n).

(** A network built in strict mode has no host bit set and a prefix
    length within range. *)
Definition strict (n : Network) : Prop :=
  0 <= prefixlen n <= max_prefixlen (net_version n) /\
  0 <= network_address n /\
  Z.land (network_address n) (hostmask n) = 0.

(** The addresses [lo], [lo + 1], ..., [hi - 1] in address order
    ([range(lo, hi)]). *)
Definition address_range (v : version) (lo hi : Z) : list Address :=
  map (fun i : nat => mkAddress v (lo + Z.of_nat i))
      (seq 0 (Z.to_nat (hi - lo))).

(** [network.hosts()] (CPython 3.9 and later): the usable hosts in
    address order.  For IPv4 the network and broadcast addresses are left
    out, for IPv6 only the subnet-router anycast address; a network with
    one host bit yields both addresses, a network without host bits its
    single address. *)
Definition hosts (n : Network) : list Address :=
  let v := net_version n in
  let network := network_address n in
  let broadcast := broadcast_address n in
  if prefixlen n =? max_prefixlen v then [mkAddress v network]
  else if prefixlen n =? max_prefixlen v - 1
       then address_range v network (broadcast + 1)
       else match v with
            | IPv4 => address_range v (network + 1) broadcast
            | IPv6 => address_range v (network + 1) (broadcast + 1)
            end.

(** What the scripts use of the module beyond the data model: the parser
    [ipaddress.ip_network] (strict mode; [None] stands for the
    [ValueError] it raises), [str] on networks and addresses, and the
    reserved-range predicates. *)
Class Lib : Type := {
  ip_network : string -> option Network;
  str_network : Network -> string;
  str_address : Address -> string;
  is_private : Address -> bool;
  is_loopback : Address -> bool
}.

End Ipaddress.
Import Ipaddress.

(* ===================================================================== *)
(** ** The environment of the scripts *)
(* ===================================================================== *)

Module Env.

(** A path names a regular file with its text, or a directory. *)
Inductive node : Type :=
| File (content : string)
| Directory.

(** Records written through [logger] by [get_zmap_scan_results]. *)
Inductive log_record : Type :=
| LogSimulationMode
| LogSimulationError (network_str : string)
| LogSimulationDone (count : nat)
| LogScanStart (cmd : string)
| LogScanDone
| LogScanFailed (stderr : string).

(** The part of the outside world the functions read or change: the file
    system, the log, and the commands handed to [subprocess.run]. *)
Record World : Type := mkWorld {
  files : gmap string node;
  log : list log_record;
  spawned : list (list string)
}.

(** [os.path.exists] *)
Definition path_exists (w : World) (path : string) : bool :=
  bool_decide (is_Some (files w !! path)).

(** [open(path, 'r')] followed by [read()] *)
Definition read_text (w : World) (path : string) : result string :=
  match files w !! path with
  | Some (File content) => Ok content
  | Some Directory => Raise (IsADirectoryError path)
  | None => Raise (FileNotFoundError path)
  end.

Definition logging (r : log_record) (w : World) : World :=
  mkWorld (files w) (log w ++ [r]) (spawned w).

(** Outcome of [subprocess.run(cmd, stdout=PIPE, stderr=PIPE, text=True)]
    before the [check=True] test: the process ran to completion, or it
    could not be started. *)
Inductive run_result : Type :=
| Completed (returncode : Z) (stdout stderr : string)
| NotStarted (e : exn).

(** The external scan tool: what running a command does to the file
    system and what it reports. *)
Class Subprocess : Type := {
  subprocess_run : list string -> gmap string node -> run_result * gmap string node
}.

(** One row of [csv.DictReader]: [row.get('network')] and
    [row.get('postal_code')]. *)
Record Row : Type := mkRow {
  row_network : option string;
  row_postal_code : option string
}.

(** [csv.DictReader] applied to the text of a file. *)
Class Csv : Type := {
  DictReader : string -> list Row
}.

(** Floating-point arithmetic as used by the reporting code: true
    division of two integers (called with a non-zero divisor and a quotient
    within the range of a float only), conversion, product and the two
    comparisons. *)
Class FloatOps : Type := {
  float : Type;
  true_div : Z -> Z -> float;
  float_of_int : Z -> float;
  fmul : float -> float -> float;
  flt : float -> float -> bool;
  fge : float -> float -> bool
}.

(** The largest float is [2**1024 - 2**971]; a quotient is out of range
    when it rounds to [2**1024] or more, which is so from
    [2**1024 - 2**970] on. *)
Definition float_limit : Z := 2 ^ 1024 - 2 ^ 970.

(** [a / b] for two integers, [b] not zero, raises [OverflowError]
    (integer division result too large for a float). *)
Definition true_div_overflows (a b : Z) : bool :=
  Z.abs b * float_limit <=? Z.abs a.

(** [(reachable / total) * 100] for two integers; the product of two
    floats does not raise. *)
Definition percentage_of `{F : FloatOps} (reachable total : Z) : result float :=
  if total =? 0 then Raise ZeroDivisionError
  else if true_div_overflows reachable total then Raise OverflowError
  else Ok (fmul (true_div reachable total) (float_of_int 100)).

(** One row of the export [networks_and_ips.csv]. *)
Record AddressRecord : Type := mkAddressRecord {
  rec_network : string;
  rec_ip : string;
  rec_postal_code : string;
  rec_reachable : Z
}.

(** What is handed to the plotting library. *)
Record Chart `{F : FloatOps} : Type := mkChart {
  chart_postal_codes : list string;
  chart_values : list float;
  chart_output_file : option string
}.
Arguments mkChart {_} _ _ _.

(** [open(path, 'w')] followed by [write(text)]: the file is created or
    replaced; a directory cannot be opened for writing. *)
Definition write_text (w : World) (path text : string) : result World :=
  match files w !! path with
  | Some Directory => Raise (IsADirectoryError path)
  | _ => Ok (mkWorld (<[ path := File text ]> (files w)) (log w) (spawned w))
  end.

End Env.
Import Env.

(* ===================================================================== *)
(** ** [Scripts/zmap_postal_code_availability.py] *)
(* ===================================================================== *)

Module Availability.
Section Functions.
Context `{L : Lib} `{P : Subprocess} `{C : Csv} `{F : FloatOps}.

(** *** [get_zmap_scan_results] *)

(** Lines 34-35: the precondition on the networks file. *)
Definition check_networks_file (networks_file : string) (w : World)
  : result unit :=
  if path_exists w networks_file then Ok tt
  else Raise (FileNotFoundError
                ("Networks file not found: " +:+ networks_file)).

(** Lines 52-59: the loop over [enumerate(network.hosts())], started at
    index [i].  Next to the set the loop gives its iterations that got past
    the test of lines 54-55, in order: the host that was examined and
    whether the test of line 58 held for its index. *)
Fixpoint simulate_hosts_loop (i : nat) (ips : list Address)
    (reachable_ips : gset string) : gset string * list (Address * bool) :=
  match ips with
  | [] => (reachable_ips, [])
  | ip :: rest =>
      if (10 <=? i)%nat then (reachable_ips, [])
      else
        let responds := (i mod 4 =? 0)%nat in
        let '(reachable_ips, examined) :=
          simulate_hosts_loop (S i) rest
            (if responds
             then {[ str_address ip ]} ∪ reachable_ips
             else reachable_ips) in
        (reachable_ips, (ip, responds) :: examined)
  end.

(** The set that the loop leaves behind. *)
Definition simulate_hosts (i : nat) (ips : list Address)
    (reachable_ips : gset string) : gset string :=
  (simulate_hosts_loop i ips reachable_ips).1.

(** Lines 45-61: one round of the loop over the lines of the file. *)
Definition simulate_network (st : gset string * World)
    (network_str : string) : gset string * World :=
  if bool_decide (network_str = "") then st
  else match ip_network network_str with
       | Some network => (simulate_hosts 0 (hosts network) st.1, st.2)
       | None => (st.1, logging (LogSimulationError network_str) st.2)
       end.

(** Lines 38-64. *)
Definition simulate_scan (networks_file : string) (w : World)
  : result (gset string) * World :=
  let w := logging LogSimulationMode w in
  match read_text w networks_file with
  | Raise e => (Raise e, w)
  | Ok text =>
      let networks := split newline (strip text) in
      let '(reachable_ips, w) :=
        fold_left simulate_network networks (∅, w) in
      (Ok reachable_ips, logging (LogSimulationDone (size reachable_ips)) w)
  end.

(** Lines 67-74: the command line of the scan tool. *)
Definition zmap_command (networks_file : string) (output_file : option string)
    (bandwidth : string) (port : Z) : list string :=
  let output_param :=
    match output_file with
    | Some f => if truthy_str output_file then ["-o"; f] else ["-o"; "-"]
    | None => ["-o"; "-"]
    end in
  ["zmap"; "-p"; pretty port; "-B"; bandwidth; "-w"; networks_file]
    ++ output_param.

(** Lines 66-89. *)
Definition zmap_scan (networks_file : string) (output_file : option string)
    (bandwidth : string) (port : Z) (w : World)
  : result (gset string) * World :=
  let cmd := zmap_command networks_file output_file bandwidth port in
  let w := logging (LogScanStart (join " " cmd)) w in
  let '(outcome, files') := subprocess_run cmd (files w) in
  let w := mkWorld files' (log w) (spawned w ++ [cmd]) in
  match outcome with
  | Completed returncode stdout stderr =>
      if returncode =? 0
      then (Ok (list_to_set (split newline (strip stdout))),
            logging LogScanDone w)
      else (Raise (CalledProcessError returncode stderr),
            logging (LogScanFailed stderr) w)
  | NotStarted e => (Raise e, w)
  end.

Definition get_zmap_scan_results (networks_file : string)
    (output_file : option string) (bandwidth : string) (port : Z)
    (simulation_mode : bool) (w : World)
  : result (gset string) * World :=
  match check_networks_file networks_file w with
  | Raise e => (Raise e, w)
  | Ok _ =>
      if simulation_mode then simulate_scan networks_file w
      else zmap_scan networks_file output_file bandwidth port w
  end.

(** *** [is_local_network] *)

(** The loop of lines 93-96 over the hosts still to be visited. *)
Fixpoint any_local (ips : list Address) : bool :=
  match ips with
  | [] => false
  | ip :: rest =>
      if is_private ip || is_loopback ip then true else any_local rest
  end.

Definition is_local_network (network : Network) : bool :=
  any_local (hosts network).

(** *** [process_input_csv] *)

Record loader_state : Type := mkLoader {
  networks : list string;
  postal_codes : gmap string string;
  row_count : Z
}.

(** [max_networks and row_count >= max_networks] *)
Definition cap_reached (max_networks : option Z) (row_count : Z) : bool :=
  match max_networks with
  | None => false
  | Some m => negb (m =? 0) && (m <=? row_count)
  end.

(** Lines 123-143: the body of the loop after the cap test. *)
Definition process_row (row : Row) (st : loader_state) : loader_state :=
  match row_network row, row_postal_code row with
  | Some network, Some postal_code =>
      if negb (truthy_str (Some network))
         || negb (truthy_str (Some postal_code))
      then st
      else
        match ip_network network with
        | Some ip_net =>
            if is_local_network ip_net then st
            else mkLoader (networks st ++ [str_network ip_net])
                          (<[ str_network ip_net := postal_code ]>
                             (postal_codes st))
                          (row_count st + 1)
        | None => mkLoader (networks st) (postal_codes st) (row_count st + 1)
        end
  | _, _ => st
  end.

(** Lines 119-143. *)
Fixpoint process_rows (max_networks : option Z) (rows : list Row)
    (st : loader_state) : loader_state :=
  match rows with
  | [] => st
  | row :: rest =>
      if cap_reached max_networks (row_count st) then st
      else process_rows max_networks rest (process_row row st)
  end.

Definition process_input_csv (input_file : string)
    (max_networks : option Z) (w : World)
  : result (list string * gmap string string) :=
  text ← read_text w input_file;
  let st := process_rows max_networks (DictReader text)
                         (mkLoader [] ∅ 0) in
  mret (networks st, postal_codes st).

(** *** [calculate_availability] *)

Definition aggregate : Type := dict (Z * Z) * list AddressRecord.

(** Lines 174-187: the body of the loop over the hosts of a network. *)
Definition record_host (network_str postal_code : string)
    (reachable_ips : gset string) (st : aggregate) (ip : Address)
  : aggregate :=
  let '(postal_code_availability, networks_and_ips) := st in
  let ip_str := str_address ip in
  let is_reachable := bool_decide (ip_str ∈ reachable_ips) in
  let networks_and_ips :=
    networks_and_ips ++
      [mkAddressRecord network_str ip_str postal_code
                       (if is_reachable then 1 else 0)] in
  let postal_code_availability :=
    if is_reachable
    then update (0, 0) (fun c => (c.1 + 1, c.2)) postal_code
                postal_code_availability
    else postal_code_availability in
  let postal_code_availability :=
    update (0, 0) (fun c => (c.1, c.2 + 1)) postal_code
           postal_code_availability in
  (postal_code_availability, networks_and_ips).

(** Lines 169-187: the loop over the networks. *)
Fixpoint aggregate_networks (networks : list string)
    (postal_codes : gmap string string) (reachable_ips : gset string)
    (st : aggregate) : result aggregate :=
  match networks with
  | [] => Ok st
  | network_str :: rest =>
      match ip_network network_str with
      | None => Raise ValueError
      | Some network =>
          match postal_codes !! network_str with
          | None => Raise (KeyError network_str)
          | Some postal_code =>
              aggregate_networks rest postal_codes reachable_ips
                (fold_left
                   (record_host network_str postal_code reachable_ips)
                   (hosts network) st)
          end
      end
  end.

(** The returned pair is the statistics and the rows written to
    [networks_and_ips.csv]. *)
Definition calculate_availability (networks : list string)
    (postal_codes : gmap string string) (reachable_ips : gset string)
  : result aggregate :=
  aggregate_networks networks postal_codes reachable_ips ([], []).

(** *** [visualize_response_rates] *)

(** Lines 208-212, also lines 136-140 of the other script. *)
Fixpoint select_rates (min_threshold : float) (items : dict (Z * Z))
    (postal_codes : list string) (response_rates : list float)
  : result (list string * list float) :=
  match items with
  | [] => Ok (postal_codes, response_rates)
  | (postal_code, (reachable, total)) :: rest =>
      percentage ← percentage_of reachable total;
      if fge percentage min_threshold
      then select_rates min_threshold rest
             (postal_codes ++ [postal_code])
             (response_rates ++ [percentage])
      else select_rates min_threshold rest postal_codes response_rates
  end.

(** [None] is returned when nothing is drawn. *)
Definition visualize_response_rates
    (postal_code_availability : dict (Z * Z))
    (output_file : option string) (min_threshold : float)
  : result (option Chart) :=
  '(postal_codes, response_rates) ←
    select_rates min_threshold postal_code_availability [] [];
  match postal_codes with
  | [] => mret None
  | _ => mret (Some (mkChart postal_codes response_rates output_file))
  end.

(** *** [main] *)

(** The parsed command line. *)
Record Args : Type := mkArgs {
  arg_input : string;
  arg_output : option string;
  arg_max_networks : option Z;
  arg_port : Z;
  arg_bandwidth : string;
  arg_networks_file : string;
  arg_min_threshold : float;
  arg_verbose : bool
}.

(** Lines 270-272: the percentage of every entry is computed and logged. *)
Fixpoint log_results (items : dict (Z * Z)) : result unit :=
  match items with
  | [] => Ok tt
  | (_, (reachable, total)) :: rest =>
      _ ← percentage_of reachable total;
      log_results rest
  end.

(** What a run of [main] leaves behind: the statistics it returns, the rows
    of the export and what was handed to the plotting library. *)
Record Run : Type := mkRun {
  run_stats : dict (Z * Z);
  run_export : list AddressRecord;
  run_chart : option Chart
}.

(** Lines 249-286.  The scan is requested without [simulation_mode], so with
    its default; an exception is logged and raised again. *)
Definition main (args : Args) (w : World) : result Run * World :=
  match process_input_csv (arg_input args) (arg_max_networks args) w with
  | Raise e => (Raise e, w)
  | Ok (networks, postal_codes) =>
      match write_text w (arg_networks_file args)
                       (join (String newline "") networks) with
      | Raise e => (Raise e, w)
      | Ok w =>
          match get_zmap_scan_results (arg_networks_file args) None
                  (arg_bandwidth args) (arg_port args) true w with
          | (Raise e, w) => (Raise e, w)
          | (Ok reachable_ips, w) =>
              ('(postal_code_availability, networks_and_ips) ←
                 calculate_availability networks postal_codes reachable_ips;
               _ ← log_results postal_code_availability;
               chart ← visualize_response_rates postal_code_availability
                         (arg_output args) (arg_min_threshold args);
               mret (mkRun postal_code_availability networks_and_ips chart),
               w)
          end
      end
  end.

End Functions.
End Availability.

(* ===================================================================== *)
(** ** [Scripts/zmap_visualizing_response_rate.py] *)
(* ===================================================================== *)

Module Visualizing.
Section Functions.
Context `{F : FloatOps}.

(** Lines 67-71: the body of the loop over the rows of the frame. *)
Definition fold_row (postal_code_availability : dict (Z * Z))
    (row : AddressRecord) : dict (Z * Z) :=
  let postal_code := rec_postal_code row in
  let reachable := rec_reachable row in
  let postal_code_availability :=
    update (0, 0) (fun c => (c.1 + reachable, c.2)) postal_code
           postal_code_availability in
  update (0, 0) (fun c => (c.1, c.2 + 1)) postal_code
         postal_code_availability.

(** Lines 75-77: a percentage is computed, and logged, for every entry of
    [sorted(postal_code_availability.items())]. *)
Fixpoint log_percentages (items : dict (Z * Z)) : result unit :=
  match items with
  | [] => Ok tt
  | (_, (reachable, total)) :: rest =>
      _ ← percentage_of reachable total;
      log_percentages rest
  end.

(** The frame is given by its rows. *)
Definition calculate_availability (df : list AddressRecord)
  : result (dict (Z * Z)) :=
  let postal_code_availability := fold_left fold_row df [] in
  _ ← log_percentages (sorted postal_code_availability);
  mret postal_code_availability.

(** Lines 93-96. *)
Fixpoint select_data (min_threshold : float) (items : dict (Z * Z))
    (data : list (string * float)) : result (list (string * float)) :=
  match items with
  | [] => Ok data
  | (postal_code, (reachable, total)) :: rest =>
      percentage ← percentage_of reachable total;
      select_data min_threshold rest
        (if fge percentage min_threshold
         then data ++ [(postal_code, percentage)]
         else data)
  end.

(** [data.sort(key=lambda x: x[1], reverse=True)]: descending by
    percentage, entries with equal keys keep their order. *)
Fixpoint insert_desc (x : string * float) (l : list (string * float))
  : list (string * float) :=
  match l with
  | [] => [x]
  | y :: l' => if flt x.2 y.2 then y :: insert_desc x l' else x :: l
  end.

Definition sort_desc (data : list (string * float))
  : list (string * float) :=
  foldr insert_desc [] data.

(** [max_codes and len(data) > max_codes] *)
Definition over_limit (max_codes : option Z) (len : nat) : bool :=
  match max_codes with
  | None => false
  | Some m => negb (m =? 0) && (m <? Z.of_nat len)
  end.

Definition visualize_basic_bar (postal_code_availability : dict (Z * Z))
    (output_file : option string) (min_threshold : float)
    (max_codes : option Z) : result (option Chart) :=
  data ← select_data min_threshold postal_code_availability [];
  let data := sort_desc data in
  let data :=
    match max_codes with
    | Some m => if over_limit max_codes (length data)
                then slice_to m data else data
    | None => data
    end in
  match data with
  | [] => mret None
  | _ => mret (Some (mkChart (map fst data) (map snd data) output_file))
  end.

(** Lines 133-150: the frame handed to the pivot table and the heat
    map. *)
Definition visualize_heatmap (postal_code_availability : dict (Z * Z))
    (output_file : option string) (min_threshold : float)
  : result (option Chart) :=
  '(postal_codes, availability_percentages) ←
    Availability.select_rates min_threshold postal_code_availability [] [];
  match postal_codes with
  | [] => mret None
  | _ => mret (Some (mkChart postal_codes availability_percentages
                             output_file))
  end.

End Functions.
End Visualizing.

(* ===================================================================== *)
(** ** [lib/database.py] *)
(* ===================================================================== *)

Module Database.

(** One entry of [results_data]. *)
Record ScanResult : Type := mkScanResult {
  result_network_id : Z;
  result_ip : string;
  result_postal_code : string;
  result_reachable : bool
}.

(** A row of the table [scan_results]: scan, network, address, postal code
    and flag.  The table is the list of the rows inserted so far. *)
Definition scan_results_row : Type := Z * Z * string * string * bool.

Definition batch_size : nat := 5000.

(** [range(0, n, step)] *)
Definition range_step (n step : nat) : list nat :=
  map (fun k => k * step)%nat (seq 0 ((n + step - 1) / step)).

(** Lines 195-196: [results_data[i:i+batch_size]] for every [i] of
    [range(0, len(results_data), batch_size)]. *)
Definition batches {A} (results_data : list A) : list (list A) :=
  map (fun i => take batch_size (drop i results_data))
      (range_step (length results_data) batch_size).

(** Lines 197-203: the values of one batch. *)
Definition values (scan_id : Z) (batch : list ScanResult)
  : list scan_results_row :=
  map (fun r => (scan_id, result_network_id r, result_ip r,
                 result_postal_code r, result_reachable r)) batch.

(** Lines 194-211 of [save_scan_results] with a database that accepts every
    insert: each batch is inserted and committed on its own; the number of
    results is returned. *)
Definition save_scan_results (scan_id : Z) (results_data : list ScanResult)
    (table : list scan_results_row) : nat * list scan_results_row :=
  (length results_data,
   fold_left (fun table batch => table ++ values scan_id batch)
             (batches results_data) table).

End Database.

(* ===================================================================== *)
(** ** [api/app.py] *)
(* ===================================================================== *)

Module Api.
Section Functions.
Context `{L : Lib}.

(** Lines 267-278 of [run_scan]: the loop over the hosts of a network. *)
Definition result_of_host (network_id : Z) (postal_code : string)
    (reachable_ips : gset string) (results_data : list Database.ScanResult)
    (ip : Address) : list Database.ScanResult :=
  let ip_str := str_address ip in
  let is_reachable := bool_decide (ip_str ∈ reachable_ips) in
  results_data ++
    [Database.mkScanResult network_id ip_str postal_code is_reachable].

(** Lines 261-278 of [run_scan]: the results of all networks. *)
Fixpoint collect_results (networks : list string)
    (postal_codes : gmap string string) (network_map : gmap string Z)
    (reachable_ips : gset string) (results_data : list Database.ScanResult)
  : result (list Database.ScanResult) :=
  match networks with
  | [] => Ok results_data
  | network_str :: rest =>
      match ip_network network_str with
      | None => Raise ValueError
      | Some network =>
          match postal_codes !! network_str with
          | None => Raise (KeyError network_str)
          | Some postal_code =>
              match network_map !! network_str with
              | None => Raise (KeyError network_str)
              | Some network_id =>
                  collect_results rest postal_codes network_map reachable_ips
                    (fold_left
                       (result_of_host network_id postal_code reachable_ips)
                       (hosts network) results_data)
              end
          end
      end
  end.

End Functions.
End Api.

(* ===================================================================== *)
(** ** Executable instances of the interfaces *)
(* ===================================================================== *)

Module Concrete.

(** *** IPv4 in dotted-quad notation.

    The instance covers the texts [a.b.c.d] and [a.b.c.d/len] of
    [ipaddress.ip_network] in strict mode; it refuses every other text
    (net masks after the slash, IPv6).  Its printers are meant for the
    IPv4 values that its parser returns. *)

Definition digit_of (c : ascii) : option Z :=
  let n := Z.of_nat (nat_of_ascii c) in
  if (48 <=? n) && (n <=? 57) then Some (n - 48) else None.

Fixpoint parse_digits (acc : Z) (s : string) : option Z :=
  match s with
  | EmptyString => Some acc
  | String c rest =>
      match digit_of c with
      | Some d => parse_digits (10 * acc + d) rest
      | None => None
      end
  end.

(** [int(s)] for a non-empty text of decimal digits. *)
Definition parse_decimal (s : string) : option Z :=
  match s with
  | EmptyString => None
  | _ => parse_digits 0 s
  end.

(** [_parse_octet]: one to three digits, no leading zero, at most 255. *)
Definition parse_octet (s : string) : option Z :=
  match s with
  | String "0" (String _ _) => None
  | _ =>
      if (3 <? String.length s)%nat then None
      else match parse_decimal s with
           | Some n => if n <=? 255 then Some n else None
           | None => None
           end
  end.

Definition parse_ipv4 (s : string) : option Z :=
  match split "." s with
  | [a; b; c; d] =>
      match parse_octet a, parse_octet b, parse_octet c, parse_octet d with
      | Some a, Some b, Some c, Some d =>
          Some (((a * 256 + b) * 256 + c) * 256 + d)
      | _, _, _, _ => None
      end
  | _ => None
  end.

Definition parse_prefixlen (s : string) : option Z :=
  match parse_decimal s with
  | Some n => if n <=? 32 then Some n else None
  | None => None
  end.

Definition ipv4_network (s : string) : option Network :=
  match split "/" s with
  | [a] =>
      match parse_ipv4 a with
      | Some addr => Some (mkNetwork IPv4 addr 32)
      | None => None
      end
  | [a; p] =>
      match parse_ipv4 a, parse_prefixlen p with
      | Some addr, Some len =>
          let n := mkNetwork IPv4 addr len in
          if Z.land addr (hostmask n) =? 0 then Some n else None
      | _, _ => None
      end
  | _ => None
  end.

Definition dotted_quad (a : Z) : string :=
  pretty (a / 16777216 mod 256) +:+ "." +:+
  pretty (a / 65536 mod 256) +:+ "." +:+
  pretty (a / 256 mod 256) +:+ "." +:+
  pretty (a mod 256).

Definition str_of_address (a : Address) : string :=
  match addr_version a with
  | IPv4 => dotted_quad (addr_int a)
  | IPv6 => ""
  end.

Definition str_of_network (n : Network) : string :=
  match net_version n with
  | IPv4 => dotted_quad (network_address n) +:+ "/" +:+ pretty (prefixlen n)
  | IPv6 => ""
  end.

(** [a in IPv4Network(base/len)] *)
Definition in_network (a : Z) (net : Z * Z) : bool :=
  Z.shiftr a (32 - net.2) =? Z.shiftr net.1 (32 - net.2).

Definition quad (a b c d : Z) : Z := ((a * 256 + b) * 256 + c) * 256 + d.

(** [IPv4Address.is_private]: the table [_private_networks] of the
    module (CPython 3.8 to 3.12). *)
Definition private_networks : list (Z * Z) :=
  [ (quad 0 0 0 0, 8); (quad 10 0 0 0, 8); (quad 127 0 0 0, 8);
    (quad 169 254 0 0, 16); (quad 172 16 0 0, 12); (quad 192 0 0 0, 29);
    (quad 192 0 0 170, 31); (quad 192 0 2 0, 24); (quad 192 168 0 0, 16);
    (quad 198 18 0 0, 15); (quad 198 51 100 0, 24); (quad 203 0 113 0, 24);
    (quad 240 0 0 0, 4); (quad 255 255 255 255, 32) ].

Definition ipv4_is_private (a : Address) : bool :=
  match addr_version a with
  | IPv4 => existsb (in_network (addr_int a)) private_networks
  | IPv6 => false
  end.

(** [IPv4Address.is_loopback]: membership of 127.0.0.0/8. *)
Definition ipv4_is_loopback (a : Address) : bool :=
  match addr_version a with
  | IPv4 => in_network (addr_int a) (quad 127 0 0 0, 8)
  | IPv6 => false
  end.

#[export] Instance ipv4 : Lib := {|
  ip_network := ipv4_network;
  str_network := str_of_network;
  str_address := str_of_address;
  is_private := ipv4_is_private;
  is_loopback := ipv4_is_loopback
|}.

(** *** Comma-separated text without quoting.

    The first line names the columns; blank lines are skipped; a row that
    is too short has no value for the columns it lacks. *)

Fixpoint column (name : string) (header fields : list string)
  : option string :=
  match header, fields with
  | h :: header', f :: fields' =>
      if decide (h = name) then Some f else column name header' fields'
  | _, _ => None
  end.

Definition plain_reader (text : string) : list Row :=
  match split newline text with
  | [] => []
  | header :: lines =>
      let header := split "," header in
      map (fun line =>
             let fields := split "," line in
             mkRow (column "network" header fields)
                   (column "postal_code" header fields))
          (filter (fun line => line <> "") lines)
  end.

#[export] Instance plain_csv : Csv := {| DictReader := plain_reader |}.

(** *** Exact rational arithmetic in place of floating point. *)

#[export] Instance rational : FloatOps := {|
  float := Q;
  true_div := fun a b =>
    if 0 <? b then Qmake a (Z.to_pos b) else Qmake (- a) (Z.to_pos (- b));
  float_of_int := inject_Z;
  fmul := Qmult;
  flt := fun x y => negb (Qle_bool y x);
  fge := fun x y => Qle_bool y x
|}.

(** *** A scan tool that finds nothing: it exits with status 0 and
    writes nothing. *)
#[export] Instance silent_zmap : Subprocess := {|
  subprocess_run := fun _ fs => (Completed 0 "" "", fs)
|}.


(** A world with the given files, an empty log and no command run. *)
Definition world_of (fs : list (string * node)) : World :=
  mkWorld (list_to_map fs) [] [].

End Concrete.

(* ===================================================================== *)
(** ** Notions used in the statements *)
(* ===================================================================== *)

(** The exported rows with postal code [p], and those among them that are
    flagged reachable. *)
Definition rows_of (p : string) (rows : list AddressRecord)
  : list AddressRecord :=
  filter (fun r => rec_postal_code r = p) rows.

Definition reachable_rows_of (p : string) (rows : list AddressRecord)
  : list AddressRecord :=
  filter (fun r => rec_postal_code r = p /\ rec_reachable r = 1) rows.

(** The flag stored in the row of a host. *)
Definition reachable_flag `{L : Lib} (R : gset string) (ip : Address) : Z :=
  if bool_decide (str_address ip ∈ R) then 1 else 0.

(** The counters agree with the rows. *)
Definition counted (st : Availability.aggregate) : Prop :=
  forall p,
    default (0, 0) (get p st.1) =
    (Z.of_nat (length (reachable_rows_of p st.2)),
     Z.of_nat (length (rows_of p st.2))).

(** Every recorded total is at least one. *)
Definition positive_totals (stats : dict (Z * Z)) : Prop :=
  Forall (fun kv : string * (Z * Z) => 0 <= kv.2.1 <= kv.2.2 /\ 1 <= kv.2.2)
         stats.

(** The quotient [reachable / total] is defined and within the range of a
    float. *)
Definition in_float_range (counts : Z * Z) : Prop :=
  Z.abs counts.1 < Z.abs counts.2 * float_limit.

(** The percentage of an entry whose total is not zero. *)
Definition rate `{F : FloatOps} (counts : Z * Z) : float :=
  fmul (true_div counts.1 counts.2) (float_of_int 100).

(** *** Concrete inputs on which the code is run *)

(** Two networks of two hosts each that share one postal code. *)
Definition two_networks : list string := ["8.8.8.0/30"; "1.1.1.0/30"].

Definition two_postal_codes : gmap string string :=
  {[ "8.8.8.0/30" := "98765"; "1.1.1.0/30" := "98765" ]}.

Definition one_reachable : gset string := {[ "8.8.8.1" ]}.

(** Statistics with a postal code for which no host was recorded. *)
Definition zero_total_stats : dict (Z * Z) :=
  [("98765", (2, 254)); ("00000", (0, 0))].

Definition sound_stats : dict (Z * Z) :=
  [("98765", (2, 254)); ("12345", (0, 2))].

(** The hosts at the indices 0, 4 and 8 of the enumeration. *)
Definition marked (ips : list Address) : list Address :=
  omap (fun i : nat => ips !! i) [0; 4; 8]%nat.

Definition marked_hosts (n : Network) : list Address := marked (hosts n).

(** The hosts that a run of the loop of the simulation examined, and those
    among them for which the test of line 58 held. *)
Definition examined (run : gset string * list (Address * bool))
  : list Address := run.2.*1.

Definition responding (run : gset string * list (Address * bool))
  : list Address := (filter (fun e : Address * bool => e.2 = true) run.2).*1.

(** The indices, in the enumeration of a network, of its hosts whose text
    is in a set. *)
Definition indices_in `{L : Lib} (n : Network) (reachable_ips : gset string)
  : list nat :=
  List.filter (fun i : nat =>
                 match hosts n !! i with
                 | Some ip => bool_decide (str_address ip ∈ reachable_ips)
                 | None => false
                 end)
              (seq 0 (length (hosts n))).

(** The texts that the simulation adds for one line of the networks file. *)
Definition marked_of_line `{L : Lib} (network_str : string) : gset string :=
  if bool_decide (network_str = "") then ∅
  else match ip_network network_str with
       | Some network => list_to_set (str_address <$> marked_hosts network)
       | None => ∅
       end.

(** The [i]-th address after the network address. *)
Definition host_at (n : Network) (i : Z) : Address :=
  mkAddress (net_version n) (network_address n + i).

(** A text from its lines. *)
Definition text_of_lines (lines : list string) : string :=
  join (String newline "") lines.

(** The public network 8.8.8.0/24 of the test suite. *)
Definition net_8_8_8_0 : Network :=
  mkNetwork IPv4 (Concrete.quad 8 8 8 0) 24.

(** 198.51.100.0/23: its lower half is reserved, its upper half is not. *)
Definition net_mixed : Network :=
  mkNetwork IPv4 (Concrete.quad 198 51 100 0) 23.

(** An input in which the same network occurs in two rows. *)
Definition duplicate_rows_world : World :=
  Concrete.world_of
    [("input.csv",
      File (text_of_lines ["network,postal_code"; "8.8.8.0/24,98765";
                           "8.8.8.0/24,11111"; ""]))].

(** An input like that of the test suite: three reserved networks and a
    public one. *)
Definition test_suite_world : World :=
  Concrete.world_of
    [("input.csv",
      File (text_of_lines ["network,postal_code"; "192.168.1.0/24,12345";
                           "10.0.0.0/24,67890"; "172.16.0.0/24,54321";
                           "8.8.8.0/24,98765"; ""]))].

(** Inputs whose first row is skipped for one of the three reasons, and
    whose second row is a public network. *)
Definition invalid_first_world : World :=
  Concrete.world_of
    [("input.csv",
      File (text_of_lines ["network,postal_code"; "not-a-network,11111";
                           "8.8.8.0/24,98765"; ""]))].

Definition missing_first_world : World :=
  Concrete.world_of
    [("input.csv",
      File (text_of_lines ["network,postal_code"; ",11111";
                           "8.8.8.0/24,98765"; ""]))].

Definition local_first_world : World :=
  Concrete.world_of
    [("input.csv",
      File (text_of_lines ["network,postal_code"; "192.168.1.0/24,11111";
                           "8.8.8.0/24,98765"; ""]))].

(** A world with a networks file, and a world without any file. *)
Definition networks_world : World :=
  Concrete.world_of
    [("networks.txt", File (text_of_lines ["8.8.8.0/24"; "1.1.1.0/30"]))].

Definition empty_world : World := Concrete.world_of [].

(** A networks file in which two small networks lie within 8.8.8.0/24. *)
Definition overlapping_networks_world : World :=
  Concrete.world_of
    [("networks.txt",
      File (text_of_lines ["8.8.8.0/24"; "8.8.8.2/31"; "8.8.8.12/30"]))].


(** *** Notions and inputs for the further properties *)

(** A text without white space, and a text that is not empty either. *)
Fixpoint spaceless (s : string) : bool :=
  match s with
  | EmptyString => true
  | String c rest => negb (isspace c) && spaceless rest
  end.

Definition word (s : string) : Prop := s <> "" /\ spaceless s = true.

(** The entry that a row of the input contributes when it is kept: the
    canonical text of its network and its postal code. *)
Definition retained `{L : Lib} (row : Row) : option (string * string) :=
  match row_network row, row_postal_code row with
  | Some network, Some postal_code =>
      if truthy_str (Some network) && truthy_str (Some postal_code)
      then match ip_network network with
           | Some N => if Availability.is_local_network N then None
                       else Some (str_network N, postal_code)
           | None => None
           end
      else None
  | _, _ => None
  end.

(** [postal_codes[k] = v] for the entries of a list, in order. *)
Definition assign_all (entries : list (string * string))
    (m : gmap string string) : gmap string string :=
  fold_left (fun m kv => <[ kv.1 := kv.2 ]> m) entries m.

(** The rows that the aggregator emits for one network, and for a list of
    networks. *)
Definition rows_of_network `{L : Lib} (network_str postal_code : string)
    (R : gset string) (N : Network) : list AddressRecord :=
  map (fun ip => mkAddressRecord network_str (str_address ip) postal_code
                                 (reachable_flag R ip))
      (hosts N).

Definition expected_rows `{L : Lib} (networks : list string)
    (postal_codes : gmap string string) (R : gset string)
  : list AddressRecord :=
  concat (omap (fun n => match ip_network n, postal_codes !! n with
                         | Some N, Some pc => Some (rows_of_network n pc R N)
                         | _, _ => None
                         end) networks).

(** A scan tool that exits with status 0 after it has printed a text. *)
Definition printing_zmap (output : string) : Subprocess := {|
  subprocess_run := fun _ fs => (Completed 0 output "", fs)
|}.

(** A command line for [main]: the input of the loader examples, no cap, no
    threshold, the networks written to [networks.txt]. *)
Definition example_args : Availability.Args (F := Concrete.rational) :=
  Availability.mkArgs (F := Concrete.rational)
    "input.csv" None None 80 "10M" "networks.txt" 0%Q false.

(** The sum of the flags of the rows with postal code [p]. *)
Definition flag_sum (p : string) (rows : list AddressRecord) : Z :=
  foldr (fun row acc => rec_reachable row + acc) 0 (rows_of p rows).

(** No value is followed by a greater one. *)
Fixpoint descending `{F : FloatOps} (values : list float) : Prop :=
  match values with
  | x :: (y :: _) as rest => flt x y = false /\ descending rest
  | _ => True
  end.

Definition three_codes : dict (Z * Z) :=
  [("11111", (1, 4)); ("22222", (3, 4)); ("33333", (2, 4))].

(** A bar of a chart that stems from the statistics and meets the
    threshold. *)
Definition selected `{F : FloatOps} (stats : dict (Z * Z)) (thr : float)
    (entry : string * float) : Prop :=
  exists r t, (entry.1, (r, t)) ∈ stats /\
              percentage_of r t = Ok entry.2 /\ fge entry.2 thr = true.

(** What a result of the service and a row of the export say about a host:
    the identifier of its network, its text, its postal code and whether it
    is reachable. *)
Definition result_facts (r : Database.ScanResult)
  : option Z * string * string * bool :=
  (Some (Database.result_network_id r), Database.result_ip r,
   Database.result_postal_code r, Database.result_reachable r).

Definition row_facts (network_map : gmap string Z) (row : AddressRecord)
  : option Z * string * string * bool :=
  (network_map !! rec_network row, rec_ip row, rec_postal_code row,
   bool_decide (rec_reachable row = 1)).

Definition two_network_ids : gmap string Z :=
  {[ "8.8.8.0/30" := 1; "1.1.1.0/30" := 2 ]}.

(* ===================================================================== *)
(** ** Facts about dictionaries *)
(* ===================================================================== *)

Section DictFacts.
Context {V : Type}.
Implicit Types (d : dict V) (k : string) (f g : V -> V).

Lemma get_update_eq dflt f k d :
  get k (update dflt f k d) = Some (f (default dflt (get k d))).
Proof.
  induction d as [|[k' v] d IH]; cbn [get update].
  - by rewrite decide_True.
  - destruct (decide (k = k')) as [->|Hne]; cbn [get].
    + by rewrite decide_True.
    + by rewrite decide_False.
Qed.

Lemma get_update_ne dflt f k k' d :
  k <> k' -> get k' (update dflt f k d) = get k' d.
Proof.
  intros Hne. induction d as [|[k0 v] d IH]; cbn [get update].
  - by rewrite decide_False.
  - destruct (decide (k = k0)) as [->|Hk]; cbn [get].
    + by rewrite !decide_False.
    + by rewrite IH.
Qed.

(** Two updates of the same key in a row act as one. *)
Lemma update_update dflt f g k d :
  update dflt f k (update dflt g k d) = update dflt (fun v => f (g v)) k d.
Proof.
  induction d as [|[k0 v] d IH]; cbn [update].
  - by rewrite decide_True.
  - destruct (decide (k = k0)) as [->|Hk]; cbn [update].
    + by rewrite decide_True.
    + rewrite decide_False by done. by rewrite IH.
Qed.

Lemma update_ext dflt f g k d :
  (forall v, f v = g v) -> update dflt f k d = update dflt g k d.
Proof.
  intros Hfg. induction d as [|[k0 v] d IH]; cbn [update].
  - by rewrite Hfg.
  - destruct (decide (k = k0)); [by rewrite Hfg | by rewrite IH].
Qed.

(** A property of the values that the update establishes and keeps. *)
Lemma Forall_update (Q : V -> Prop) dflt f k d :
  Q (f dflt) -> (forall v, Q v -> Q (f v)) ->
  Forall (fun kv => Q kv.2) d ->
  Forall (fun kv => Q kv.2) (update dflt f k d).
Proof.
  intros Hd Hf. induction 1 as [|[k0 v] d Hv Hall IH]; cbn [update].
  - constructor; [exact Hd | constructor].
  - cbn in Hv. destruct (decide (k = k0)); constructor; cbn; auto.
Qed.

Lemma get_Forall (Q : V -> Prop) k d v :
  Forall (fun kv => Q kv.2) d -> get k d = Some v -> Q v.
Proof.
  induction 1 as [|[k0 v0] d Hv Hall IH]; cbn [get]; [done|].
  destruct (decide (k = k0)); [by intros [= <-] | auto].
Qed.

(** The keys after an update: the key is appended when it is new. *)
Lemma keys_update dflt f k d :
  keys (update dflt f k d) =
  if get k d is Some _ then keys d else keys d ++ [k].
Proof.
  unfold keys. induction d as [|[k0 v] d IH]; cbn [update get map app]; [done|].
  destruct (decide (k = k0)) as [->|Hk]; [done|].
  cbn [map fst]. rewrite IH. by destruct (get k d).
Qed.

End DictFacts.

(* ===================================================================== *)
(** ** The availability aggregator *)
(* ===================================================================== *)

Section Aggregator.
Context `{L : Lib}.
Implicit Types (st : Availability.aggregate) (R : gset string).

(** One host changes one entry of the statistics and adds one row. *)
Lemma record_host_eq n pc R st ip :
  Availability.record_host n pc R st ip =
  (update (0, 0) (fun c => (c.1 + reachable_flag R ip, c.2 + 1)) pc st.1,
   st.2 ++ [mkAddressRecord n (str_address ip) pc (reachable_flag R ip)]).
Proof.
  destruct st as [d rows]. unfold Availability.record_host, reachable_flag.
  cbn [fst snd]. f_equal. destruct (bool_decide _).
  - by rewrite update_update.
  - apply update_ext. intros [r t]. cbn. f_equal. lia.
Qed.

(** An invariant of the state that every host keeps holds of the result. *)
Lemma aggregate_networks_invariant (P : Availability.aggregate -> Prop)
    networks postal_codes R :
  (forall n pc st ip, P st -> P (Availability.record_host n pc R st ip)) ->
  forall st st',
    P st ->
    Availability.aggregate_networks networks postal_codes R st = Ok st' ->
    P st'.
Proof.
  intros Hstep. induction networks as [|n networks IH]; intros st st' HP.
  - cbn. by intros [= <-].
  - cbn [Availability.aggregate_networks].
    destruct (ip_network n) as [network|]; [|done].
    destruct (postal_codes !! n) as [pc|]; [|done].
    apply IH. clear IH. revert st HP.
    induction (hosts network) as [|ip ips IHips]; intros st HP; cbn; auto.
Qed.


Lemma counted_record_host n pc R st ip :
  counted st -> counted (Availability.record_host n pc R st ip).
Proof.
  intros Hst p. rewrite record_host_eq. cbn [fst snd].
  specialize (Hst p). unfold reachable_rows_of, rows_of in *.
  rewrite !filter_app, !length_app, !Nat2Z.inj_add.
  assert (reachable_flag R ip = 1 \/ reachable_flag R ip = 0) as Hflag
    by (unfold reachable_flag; destruct (bool_decide _); auto).
  destruct (decide (pc = p)) as [->|Hne].
  - rewrite get_update_eq, Hst. cbn [default from_option id fst snd].
    rewrite !filter_cons, !filter_nil. cbn [rec_postal_code rec_reachable].
    rewrite (decide_True (P := p = p)) by done.
    destruct Hflag as [-> | ->].
    + rewrite decide_True by done. cbn [length]. f_equal; lia.
    + rewrite decide_False by (intros [_ ?]; done). cbn [length]. f_equal; lia.
  - rewrite get_update_ne, Hst by done.
    rewrite !filter_cons, !filter_nil. cbn [rec_postal_code rec_reachable].
    rewrite (decide_False (P := pc = p)) by done.
    rewrite decide_False by (intros [? _]; done).
    cbn [length]. f_equal; lia.
Qed.

Lemma positive_record_host n pc R st ip :
  positive_totals st.1 ->
  positive_totals (Availability.record_host n pc R st ip).1.
Proof.
  intros Hst. rewrite record_host_eq. cbn [fst snd].
  assert (0 <= reachable_flag R ip <= 1) as Hflag
    by (unfold reachable_flag; destruct (bool_decide _); lia).
  apply (Forall_update (fun c => 0 <= c.1 <= c.2 /\ 1 <= c.2)); [| |done].
  - cbn. lia.
  - intros [r t]; cbn. lia.
Qed.

(** The direct fold over the rows recorded so far gives the statistics
    recorded so far. *)
Lemma fold_row_record_host n pc R st ip :
  fold_left Visualizing.fold_row st.2 [] = st.1 ->
  fold_left Visualizing.fold_row
            (Availability.record_host n pc R st ip).2 [] =
  (Availability.record_host n pc R st ip).1.
Proof.
  intros Hst. rewrite record_host_eq. cbn [fst snd].
  rewrite fold_left_app, Hst. cbn [fold_left].
  unfold Visualizing.fold_row. cbn [rec_postal_code rec_reachable].
  by rewrite update_update.
Qed.

End Aggregator.

(* ===================================================================== *)
(** ** Percentages and the reporting functions *)
(* ===================================================================== *)

Section Reporting.
Context `{F : FloatOps}.
Implicit Types (stats : dict (Z * Z)).

Lemma float_limit_gt_1 : 1 < float_limit.
Proof. reflexivity. Qed.

Lemma in_float_range_nonzero (counts : Z * Z) :
  in_float_range counts -> counts.2 <> 0.
Proof.
  destruct counts as [r t]. unfold in_float_range. cbn [fst snd].
  intros Hlt ->. cbn in Hlt. lia.
Qed.

(** Counts between 0 and a positive total are in range. *)
Lemma in_float_range_share r t : 0 <= r <= t -> 1 <= t -> in_float_range (r, t).
Proof.
  intros Hr Ht. unfold in_float_range. cbn [fst snd].
  pose proof float_limit_gt_1. rewrite !Z.abs_eq by lia. nia.
Qed.

Lemma percentage_of_in_range reachable total :
  in_float_range (reachable, total) ->
  percentage_of reachable total = Ok (rate (reachable, total)).
Proof.
  intros Hin. pose proof (in_float_range_nonzero _ Hin) as Hne.
  unfold percentage_of, true_div_overflows. cbn [fst snd] in *.
  destruct (Z.eqb_spec total 0); [done|].
  unfold in_float_range in Hin. cbn [fst snd] in Hin.
  destruct (Z.leb_spec (Z.abs total * float_limit) (Z.abs reachable));
    [lia | done].
Qed.

Lemma percentage_of_nonzero reachable total :
  total <> 0 ->
  percentage_of reachable total = Ok (rate (reachable, total)) \/
  percentage_of reachable total = Raise OverflowError.
Proof.
  intros Hne. unfold percentage_of.
  destruct (Z.eqb_spec total 0); [done|].
  destruct (true_div_overflows reachable total); auto.
Qed.

Lemma percentage_of_zero reachable :
  percentage_of reachable 0 = Raise ZeroDivisionError.
Proof. reflexivity. Qed.

Lemma select_rates_ok thr stats codes rates :
  Forall (fun kv => in_float_range kv.2) stats ->
  exists r, Availability.select_rates thr stats codes rates = Ok r.
Proof.
  intros Hall. revert codes rates.
  induction Hall as [|[pc [r t]] stats Ht _ IH]; intros codes rates.
  - cbn. eauto.
  - cbn [Availability.select_rates].
    rewrite (percentage_of_in_range r t Ht). cbn.
    destruct (fge _ thr); apply IH.
Qed.

Lemma select_rates_no_zero_division thr stats codes rates :
  Forall (fun kv => kv.2.2 <> 0) stats ->
  Availability.select_rates thr stats codes rates <> Raise ZeroDivisionError.
Proof.
  intros Hall. revert codes rates.
  induction Hall as [|[pc [r t]] stats Ht _ IH]; intros codes rates.
  - done.
  - cbn [Availability.select_rates].
    destruct (percentage_of_nonzero r t Ht) as [-> | ->]; [|done]. cbn.
    destruct (fge _ thr); apply IH.
Qed.

Lemma select_rates_raises thr stats codes rates :
  Forall (fun kv => kv.2.2 = 0 \/ in_float_range kv.2) stats ->
  Exists (fun kv => kv.2.2 = 0) stats ->
  Availability.select_rates thr stats codes rates = Raise ZeroDivisionError.
Proof.
  intros Hall Hex. revert codes rates.
  induction Hex as [[pc [r t]] stats Ht|[pc [r t]] stats _ IH];
    intros codes rates; cbn [Availability.select_rates].
  - cbn in Ht. subst t. reflexivity.
  - apply Forall_cons_1 in Hall as [[Ht | Ht] Hall]; cbn [snd] in Ht.
    + subst t. reflexivity.
    + rewrite (percentage_of_in_range r t Ht). cbn.
      destruct (fge _ thr); by apply IH.
Qed.

Lemma select_data_ok thr stats data :
  Forall (fun kv => in_float_range kv.2) stats ->
  exists r, Visualizing.select_data thr stats data = Ok r.
Proof.
  intros Hall. revert data.
  induction Hall as [|[pc [r t]] stats Ht _ IH]; intros data.
  - cbn. eauto.
  - cbn [Visualizing.select_data].
    rewrite (percentage_of_in_range r t Ht). cbn. apply IH.
Qed.

Lemma select_data_no_zero_division thr stats data :
  Forall (fun kv => kv.2.2 <> 0) stats ->
  Visualizing.select_data thr stats data <> Raise ZeroDivisionError.
Proof.
  intros Hall. revert data.
  induction Hall as [|[pc [r t]] stats Ht _ IH]; intros data.
  - done.
  - cbn [Visualizing.select_data].
    destruct (percentage_of_nonzero r t Ht) as [-> | ->]; [|done]. cbn.
    apply IH.
Qed.

Lemma select_data_raises thr stats data :
  Forall (fun kv => kv.2.2 = 0 \/ in_float_range kv.2) stats ->
  Exists (fun kv => kv.2.2 = 0) stats ->
  Visualizing.select_data thr stats data = Raise ZeroDivisionError.
Proof.
  intros Hall Hex. revert data.
  induction Hex as [[pc [r t]] stats Ht|[pc [r t]] stats _ IH];
    intros data; cbn [Visualizing.select_data].
  - cbn in Ht. subst t. reflexivity.
  - apply Forall_cons_1 in Hall as [[Ht | Ht] Hall]; cbn [snd] in Ht.
    + subst t. reflexivity.
    + rewrite (percentage_of_in_range r t Ht). cbn. by apply IH.
Qed.

Lemma log_percentages_in_range stats :
  Forall (fun kv => in_float_range kv.2) stats ->
  Visualizing.log_percentages stats = Ok tt.
Proof.
  induction 1 as [|[pc [r t]] stats Ht _ IH]; [done|].
  cbn [Visualizing.log_percentages].
  rewrite (percentage_of_in_range r t Ht). exact IH.
Qed.

(** Without a zero total the only error of the logging is the overflow. *)
Lemma log_percentages_nonzero stats :
  Forall (fun kv => kv.2.2 <> 0) stats ->
  Visualizing.log_percentages stats = Ok tt \/
  Visualizing.log_percentages stats = Raise OverflowError.
Proof.
  induction 1 as [|[pc [r t]] stats Ht _ IH]; [by left|].
  cbn [Visualizing.log_percentages].
  destruct (percentage_of_nonzero r t Ht) as [-> | ->]; [exact IH | by right].
Qed.

Lemma positive_totals_nonzero stats :
  positive_totals stats -> Forall (fun kv => kv.2.2 <> 0) stats.
Proof.
  unfold positive_totals. intros Hpos.
  eapply Forall_impl; [exact Hpos|]. intros [pc [r t]]; cbn. lia.
Qed.

Lemma positive_totals_in_range stats :
  positive_totals stats -> Forall (fun kv => in_float_range kv.2) stats.
Proof.
  unfold positive_totals. intros Hpos.
  eapply Forall_impl; [exact Hpos|].
  intros [pc [r t]]; cbn. intros [Hr Ht]. by apply in_float_range_share.
Qed.

(** Sorting the entries keeps what holds of every entry. *)
Lemma Forall_insert_sorted {V} (Q : string * V -> Prop) kv (d : dict V) :
  Q kv -> Forall Q d -> Forall Q (insert_sorted kv d).
Proof.
  intros Hkv. induction 1 as [|kv' d Hkv' Hd IH]; cbn [insert_sorted].
  - by constructor.
  - destruct (String.ltb kv.1 kv'.1); repeat constructor; done.
Qed.

Lemma Forall_sorted {V} (Q : string * V -> Prop) (d : dict V) :
  Forall Q d -> Forall Q (sorted d).
Proof.
  unfold sorted. induction 1 as [|kv d Hkv Hd IH]; [constructor|].
  cbn [foldr]. by apply Forall_insert_sorted.
Qed.

(** The logging of the direct fold succeeds on statistics in range. *)
Lemma log_percentages_ok stats :
  positive_totals stats ->
  Visualizing.log_percentages (sorted stats) = Ok tt.
Proof.
  intros Hpos. apply log_percentages_in_range, Forall_sorted.
  by apply positive_totals_in_range.
Qed.

End Reporting.

(* ===================================================================== *)
(** ** Claims about the aggregation and the reporting *)
(* ===================================================================== *)


(** C1: when every network has a key in [postal_codes], then for every
    postal code [p] of the returned mapping the first counter is the number
    of emitted rows with postal code [p] and reachable flag 1, and the second
    counter is the number of all emitted rows with postal code [p], whatever
    network they stem from. *)
Theorem calculate_availability_counts `{L : Lib}
    (networks : list string) (postal_codes : gmap string string)
    (reachable_ips : gset string) stats rows :
  (forall n, n ∈ networks -> is_Some (postal_codes !! n)) ->
  Availability.calculate_availability networks postal_codes reachable_ips
    = Ok (stats, rows) ->
  forall p reachable_count total_count,
    get p stats = Some (reachable_count, total_count) ->
    reachable_count = Z.of_nat (length (reachable_rows_of p rows)) /\
    total_count = Z.of_nat (length (rows_of p rows)).
Proof.
  intros _ Hrun p r t Hp.
  assert (counted (stats, rows)) as Hc.
  { eapply aggregate_networks_invariant; [| |exact Hrun].
    - intros. by apply counted_record_host.
    - intros q. reflexivity. }
  specialize (Hc p). cbn [fst snd] in Hc. rewrite Hp in Hc. cbn in Hc.
  by injection Hc.
Qed.

Lemma calculate_availability_counts_witness :
  exists stats rows,
    Availability.calculate_availability (L := Concrete.ipv4)
      two_networks two_postal_codes one_reachable = Ok (stats, rows) /\
    get "98765" stats = Some (1, 4) /\
    1 = Z.of_nat (length (reachable_rows_of "98765" rows)) /\
    4 = Z.of_nat (length (rows_of "98765" rows)).
Proof.
  eexists _, _. split; [vm_compute; reflexivity|].
  split; [vm_compute; reflexivity|].
  eapply (calculate_availability_counts (L := Concrete.ipv4)
            two_networks two_postal_codes one_reachable).
  - intros n Hn. apply (Forall_forall (fun n => is_Some (two_postal_codes !! n))
                                      two_networks); [|exact Hn].
    repeat constructor; eexists; vm_compute; reflexivity.
  - vm_compute. reflexivity.
  - vm_compute. reflexivity.
Defined.

(** C2: folding the rows that the aggregator emitted with the direct fold
    of the visualisation script gives back the statistics that the
    aggregator returned, entry for entry and in the same order. *)
Theorem direct_fold_round_trip `{L : Lib} `{F : FloatOps}
    (networks : list string) (postal_codes : gmap string string)
    (reachable_ips : gset string) stats rows :
  (forall n, n ∈ networks -> is_Some (postal_codes !! n)) ->
  Availability.calculate_availability networks postal_codes reachable_ips
    = Ok (stats, rows) ->
  Visualizing.calculate_availability rows = Ok stats.
Proof.
  intros _ Hrun. unfold Visualizing.calculate_availability.
  assert (fold_left Visualizing.fold_row rows [] = stats
          /\ positive_totals stats) as [-> Hpos].
  { refine (aggregate_networks_invariant
              (fun st => fold_left Visualizing.fold_row st.2 [] = st.1
                         /\ positive_totals st.1)
              networks postal_codes reachable_ips _ ([], []) (stats, rows)
              _ Hrun).
    - intros n pc st ip [Hfold Hpos]. split.
      + by apply fold_row_record_host.
      + by apply positive_record_host.
    - split; [done | constructor]. }
  rewrite log_percentages_ok by done.
  reflexivity.
Qed.

Lemma direct_fold_round_trip_witness :
  exists stats rows,
    Availability.calculate_availability (L := Concrete.ipv4)
      two_networks two_postal_codes one_reachable = Ok (stats, rows) /\
    Visualizing.calculate_availability (F := Concrete.rational) rows
      = Ok stats.
Proof.
  eexists _, _. split; [vm_compute; reflexivity|].
  apply (direct_fold_round_trip (L := Concrete.ipv4) (F := Concrete.rational)
           two_networks two_postal_codes one_reachable).
  - intros n Hn. apply (Forall_forall (fun n => is_Some (two_postal_codes !! n))
                                      two_networks); [|exact Hn].
    repeat constructor; eexists; vm_compute; reflexivity.
  - vm_compute. reflexivity.
Defined.

(** The scenarios of the test suite: 8.8.8.0/24 with two reachable
    addresses gives 2 of 254, and three stored rows with the flags 1, 0, 1
    give 2 of 3. *)
Example calculate_availability_test_suite :
  match Availability.calculate_availability (L := Concrete.ipv4)
          ["8.8.8.0/24"] {[ "8.8.8.0/24" := "98765" ]}
          {[ "8.8.8.1"; "8.8.8.3" ]} with
  | Ok (stats, rows) => stats = [("98765", (2, 254))] /\ length rows = 254%nat
  | Raise _ => False
  end.
Proof. vm_compute. split; reflexivity. Qed.

Example direct_fold_test_suite :
  Visualizing.calculate_availability (F := Concrete.rational)
    [ mkAddressRecord "8.8.8.0/24" "8.8.8.1" "98765" 1;
      mkAddressRecord "8.8.8.0/24" "8.8.8.2" "98765" 0;
      mkAddressRecord "8.8.8.0/24" "8.8.8.3" "98765" 1 ]
  = Ok [("98765", (2, 3))].
Proof. reflexivity. Qed.

(** Every total that the aggregator records is at least one, and no
    reachable count exceeds its total. *)
Lemma calculate_availability_positive_totals `{L : Lib}
    networks postal_codes R stats rows :
  Availability.calculate_availability networks postal_codes R
    = Ok (stats, rows) ->
  positive_totals stats.
Proof.
  intros Hrun.
  refine (aggregate_networks_invariant (fun st => positive_totals st.1)
            networks postal_codes R _ ([], []) (stats, rows) _ Hrun).
  - intros. by apply positive_record_host.
  - constructor.
Qed.

(** So does the direct fold. *)
Lemma fold_row_positive_totals (df : list AddressRecord) stats :
  Forall (fun row => 0 <= rec_reachable row <= 1) df ->
  positive_totals stats ->
  positive_totals (fold_left Visualizing.fold_row df stats).
Proof.
  intros Hdf. revert stats.
  induction Hdf as [|row df Hrow _ IH]; intros stats Hpos; [done|].
  cbn [fold_left]. apply IH. unfold Visualizing.fold_row.
  rewrite update_update.
  apply (Forall_update (fun c => 0 <= c.1 <= c.2 /\ 1 <= c.2)); [| |done].
  - cbn. lia.
  - intros [r t]; cbn. lia.
Qed.

(** A postal code whose total is 0 makes each reporting function raise the
    division error, when the quotients of the other entries are within the
    range of a float. *)
Lemma reporting_zero_total_raises `{F : FloatOps}
    (stats : dict (Z * Z)) output_file min_threshold max_codes :
  Forall (fun kv => kv.2.2 = 0 \/ in_float_range kv.2) stats ->
  Exists (fun kv => kv.2.2 = 0) stats ->
  Availability.visualize_response_rates stats output_file min_threshold
    = Raise ZeroDivisionError /\
  Visualizing.visualize_basic_bar stats output_file min_threshold max_codes
    = Raise ZeroDivisionError /\
  Visualizing.visualize_heatmap stats output_file min_threshold
    = Raise ZeroDivisionError.
Proof.
  intros Hall Hex.
  unfold Availability.visualize_response_rates,
    Visualizing.visualize_basic_bar, Visualizing.visualize_heatmap.
  rewrite select_rates_raises, select_data_raises by done.
  by repeat split.
Qed.

(** C8, as the code has it: the percentage is computed without a guard, so
    a stats mapping with a zero total makes the reporting functions raise
    [ZeroDivisionError] (shown at [zero_total_stats]). *)
Lemma reporting_raises_on_zero_total :
  Availability.visualize_response_rates (F := Concrete.rational)
    zero_total_stats None 0%Q = Raise ZeroDivisionError /\
  Visualizing.visualize_basic_bar (F := Concrete.rational)
    zero_total_stats None 0%Q (Some 50) = Raise ZeroDivisionError.
Proof. split; reflexivity. Qed.

(** C8, amended: when no postal code of the stats mapping has total count
    0, none of the reporting functions raises [ZeroDivisionError]; and when
    moreover every quotient is within the range of a float, as it is for
    counts with 0 <= reachable <= total, each of them returns. *)
Theorem reporting_no_division_error `{F : FloatOps}
    (stats : dict (Z * Z)) output_file min_threshold max_codes :
  Forall (fun kv => kv.2.2 <> 0) stats ->
  (Availability.visualize_response_rates stats output_file min_threshold
     <> Raise ZeroDivisionError /\
   Visualizing.visualize_basic_bar stats output_file min_threshold max_codes
     <> Raise ZeroDivisionError /\
   Visualizing.visualize_heatmap stats output_file min_threshold
     <> Raise ZeroDivisionError) /\
  (Forall (fun kv => Z.abs kv.2.1 < Z.abs kv.2.2 * float_limit) stats ->
   is_ok (Availability.visualize_response_rates stats output_file
            min_threshold) = true /\
   is_ok (Visualizing.visualize_basic_bar stats output_file min_threshold
            max_codes) = true /\
   is_ok (Visualizing.visualize_heatmap stats output_file min_threshold)
     = true).
Proof.
  intros Hnz. split.
  - unfold Availability.visualize_response_rates,
      Visualizing.visualize_basic_bar, Visualizing.visualize_heatmap.
    pose proof (select_rates_no_zero_division min_threshold stats [] [] Hnz)
      as Hrates.
    pose proof (select_data_no_zero_division min_threshold stats [] Hnz)
      as Hdata.
    destruct (Availability.select_rates min_threshold stats [] [])
      as [[cs rs]|e]; destruct (Visualizing.select_data min_threshold stats [])
      as [data|e']; cbn; repeat split; try congruence.
    all: try (by destruct cs).
    all: destruct max_codes as [m|];
      [destruct (Visualizing.over_limit _ _);
         match goal with
         | |- context [match ?l with [] => _ | _ :: _ => _ end] =>
             by destruct l
         end
      | by destruct (Visualizing.sort_desc data)].
  - intros Hall.
    unfold Availability.visualize_response_rates,
      Visualizing.visualize_basic_bar, Visualizing.visualize_heatmap.
    destruct (select_rates_ok min_threshold stats [] [] Hall) as [[cs rs] ->].
    destruct (select_data_ok min_threshold stats [] Hall) as [data ->].
    cbn. repeat split.
    + by destruct cs.
    + destruct max_codes as [m|].
      * destruct (Visualizing.over_limit _ _);
          match goal with
          | |- context [match ?l with [] => _ | _ :: _ => _ end] =>
              by destruct l
          end.
      * by destruct (Visualizing.sort_desc data).
    + by destruct cs.
Qed.

Lemma reporting_no_division_error_witness :
  Availability.visualize_response_rates (F := Concrete.rational)
    sound_stats None 0%Q <> Raise ZeroDivisionError /\
  is_ok (Availability.visualize_response_rates (F := Concrete.rational)
           sound_stats None 0%Q) = true /\
  is_ok (Visualizing.visualize_basic_bar (F := Concrete.rational)
           sound_stats None 0%Q (Some 50)) = true /\
  is_ok (Visualizing.visualize_heatmap (F := Concrete.rational)
           sound_stats None 0%Q) = true.
Proof.
  destruct (reporting_no_division_error (F := Concrete.rational)
              sound_stats None 0%Q (Some 50)) as [(Hrates & _) Hok].
  - repeat constructor; cbn; lia.
  - split; [exact Hrates|]. apply Hok.
    repeat constructor; vm_compute; reflexivity.
Defined.

(* ===================================================================== *)
(** ** The network classifier *)
(* ===================================================================== *)

Section Classifier.
Context `{L : Lib}.

Lemma any_local_spec (ips : list Address) :
  Availability.any_local ips = true <->
  exists ip, ip ∈ ips /\ (is_private ip = true \/ is_loopback ip = true).
Proof.
  induction ips as [|ip ips IH]; cbn [Availability.any_local].
  - split; [done|]. intros (ip & Hin & _). by apply elem_of_nil in Hin.
  - destruct (is_private ip || is_loopback ip) eqn:Hip.
    + split; [|done]. intros _. exists ip. split; [left|].
      by apply orb_true_iff.
    + rewrite IH. apply orb_false_iff in Hip as [Hp Hl].
      split.
      * intros (ip' & Hin & Hloc). exists ip'. split; [by right|done].
      * intros (ip' & Hin & Hloc). apply elem_of_cons in Hin as [->|Hin].
        -- destruct Hloc; congruence.
        -- by exists ip'.
Qed.

End Classifier.

(** C3: a network is classified local exactly when one of its usable host
    addresses is private or loopback; public hosts next to such an address
    do not change the verdict. *)
Theorem is_local_network_iff `{L : Lib} (N : Network) :
  (Availability.is_local_network N = true <->
   exists ip, ip ∈ hosts N /\ (is_private ip = true \/ is_loopback ip = true))
  /\
  (forall ip ip',
     ip ∈ hosts N -> is_private ip = true \/ is_loopback ip = true ->
     ip' ∈ hosts N -> is_private ip' = false -> is_loopback ip' = false ->
     Availability.is_local_network N = true).
Proof.
  split; [apply any_local_spec|].
  intros ip ip' Hin Hloc _ _ _. apply any_local_spec. eauto.
Qed.

Lemma is_local_network_iff_witness :
  Availability.is_local_network (L := Concrete.ipv4) net_mixed = true.
Proof.
  refine (proj2 (is_local_network_iff (L := Concrete.ipv4) net_mixed)
            (host_at net_mixed 1) (host_at net_mixed 300) _ _ _ _ _).
  - apply (list_elem_of_lookup_2 _ 0%nat). vm_compute. reflexivity.
  - left. vm_compute. reflexivity.
  - apply (list_elem_of_lookup_2 _ 299%nat). vm_compute. reflexivity.
  - vm_compute. reflexivity.
  - vm_compute. reflexivity.
Defined.

(** The verdicts of the test suite that can be replayed here. *)
Example is_local_network_private :
  Availability.is_local_network (L := Concrete.ipv4)
    (mkNetwork IPv4 (Concrete.quad 192 168 1 0) 24) = true.
Proof. vm_compute. reflexivity. Qed.

Example is_local_network_public :
  Availability.is_local_network (L := Concrete.ipv4) net_8_8_8_0 = false.
Proof. vm_compute. reflexivity. Qed.

(* ===================================================================== *)
(** ** The input loader *)
(* ===================================================================== *)

Section Loader.
Context `{L : Lib}.
Implicit Types (st : Availability.loader_state) (row : Row).

(** A row without a network or without a postal code is passed over and
    does not count. *)
Lemma process_row_missing row st :
  truthy_str (row_network row) = false \/
  truthy_str (row_postal_code row) = false ->
  Availability.process_row row st = st.
Proof.
  unfold Availability.process_row.
  destruct (row_network row) as [network|], (row_postal_code row) as [pc|];
    try done.
  intros [-> | ->]; [done | by rewrite orb_true_r].
Qed.

(** A row whose network is classified local is passed over and does not
    count. *)
Lemma process_row_local row st network pc N :
  row_network row = Some network -> row_postal_code row = Some pc ->
  ip_network network = Some N ->
  Availability.is_local_network N = true ->
  Availability.process_row row st = st.
Proof.
  intros Hn Hpc HN Hloc. unfold Availability.process_row.
  rewrite Hn, Hpc, HN, Hloc. by destruct (_ || _).
Qed.

(** A row whose network does not parse adds nothing but is counted. *)
Lemma process_row_invalid row st :
  truthy_str (row_network row) = true ->
  truthy_str (row_postal_code row) = true ->
  (forall network, row_network row = Some network ->
                   ip_network network = None) ->
  Availability.process_row row st =
  Availability.mkLoader (Availability.networks st)
    (Availability.postal_codes st) (Availability.row_count st + 1).
Proof.
  intros Hn Hpc Hbad. unfold Availability.process_row.
  destruct (row_network row) as [network|]; [|done].
  destruct (row_postal_code row) as [pc|]; [|done].
  rewrite Hn, Hpc. cbn. by rewrite (Hbad network).
Qed.

(** A row with a public network is appended, recorded and counted. *)
Lemma process_row_cases row st :
  Availability.process_row row st = st \/
  Availability.process_row row st =
    Availability.mkLoader (Availability.networks st)
      (Availability.postal_codes st) (Availability.row_count st + 1) \/
  exists network pc N,
    row_network row = Some network /\ row_postal_code row = Some pc /\
    ip_network network = Some N /\
    Availability.is_local_network N = false /\
    Availability.process_row row st =
      Availability.mkLoader
        (Availability.networks st ++ [str_network N])
        (<[ str_network N := pc ]> (Availability.postal_codes st))
        (Availability.row_count st + 1).
Proof.
  unfold Availability.process_row.
  destruct (row_network row) as [network|]; [|by left].
  destruct (row_postal_code row) as [pc|]; [|by left].
  destruct (_ || _); [by left|].
  destruct (ip_network network) as [N|] eqn:HN; [|by right; left].
  destruct (Availability.is_local_network N) eqn:Hloc; [by left|].
  right; right. by exists network, pc, N.
Qed.

(** An invariant of the loop that every row keeps holds when it ends. *)
Lemma process_rows_invariant (P : Availability.loader_state -> Prop)
    max_networks rows :
  (forall row st, row ∈ rows -> P st -> P (Availability.process_row row st)) ->
  forall st, P st -> P (Availability.process_rows max_networks rows st).
Proof.
  induction rows as [|row rows IH]; intros Hstep st HP; [done|].
  cbn [Availability.process_rows].
  destruct (Availability.cap_reached _ _); [done|].
  apply IH.
  - intros row' st' Hin. apply Hstep. by right.
  - apply Hstep; [by left | done].
Qed.

End Loader.

(** The number of distinct elements of a list against its length. *)
Lemma size_list_to_set_le (l : list string) :
  (size (list_to_set l : gset string) <= length l)%nat.
Proof.
  induction l as [|x l IH]; [done|]. cbn [list_to_set foldr length].
  change (size ({[x]} ∪ (list_to_set l : gset string)) <= S (length l))%nat.
  rewrite size_union_alt, size_singleton.
  assert (size ((list_to_set l : gset string) ∖ {[x]})
          <= size (list_to_set l : gset string))%nat as Hdiff.
  { apply subseteq_size. apply subseteq_difference_l. reflexivity. }
  lia.
Qed.

Lemma size_list_to_set_NoDup (l : list string) :
  size (list_to_set l : gset string) = length l <-> NoDup l.
Proof.
  split; [|apply size_list_to_set].
  induction l as [|x l IH]; [constructor|].
  change (size ({[x]} ∪ (list_to_set l : gset string)) = S (length l)
          -> NoDup (x :: l)).
  intros Hsize. pose proof (size_list_to_set_le l) as Hle.
  destruct (decide (x ∈ l)) as [Hin|Hnin].
  - assert ({[x]} ∪ (list_to_set l : gset string) = list_to_set l) as Heq.
    { apply subseteq_union_1_L, singleton_subseteq_l.
      by apply elem_of_list_to_set. }
    rewrite Heq in Hsize. lia.
  - rewrite size_union in Hsize
      by (apply disjoint_singleton_l; by rewrite elem_of_list_to_set).
    rewrite size_singleton in Hsize.
    constructor; [done|]. apply IH. lia.
Qed.

(** C4, as the code has it: a network that occurs in two rows is appended
    twice and recorded under one key, so the list is longer than the map
    has keys. *)
Lemma process_input_csv_duplicate_rows :
  exists networks postal_codes,
    Availability.process_input_csv (L := Concrete.ipv4)
      (C := Concrete.plain_csv) "input.csv" None duplicate_rows_world
      = Ok (networks, postal_codes) /\
    length networks <> size postal_codes.
Proof.
  eexists _, _. split; [vm_compute; reflexivity|].
  vm_compute. intros [=].
Qed.

(** C4, amended: every key of the returned map is the canonical text of a
    network that was read from an input row and classified as not local;
    the keys of the map are exactly the entries of the returned list, so
    the map has at most as many keys as the list has entries, and as many
    exactly when no entry of the list occurs twice. *)
Theorem process_input_csv_keys `{L : Lib} `{C : Csv}
    input_file max_networks (w : World) networks postal_codes :
  Availability.process_input_csv input_file max_networks w
    = Ok (networks, postal_codes) ->
  (exists text,
     read_text w input_file = Ok text /\
     forall k, k ∈ dom postal_codes ->
       exists row network N,
         row ∈ DictReader text /\ row_network row = Some network /\
         ip_network network = Some N /\
         Availability.is_local_network N = false /\
         k = str_network N) /\
  dom postal_codes = list_to_set networks /\
  (size postal_codes <= length networks)%nat /\
  (size postal_codes = length networks <-> NoDup networks).
Proof.
  unfold Availability.process_input_csv.
  destruct (read_text w input_file) as [text|e] eqn:Hread; [|done].
  cbn. intros [= <- <-].
  set (st := Availability.process_rows _ _ _).
  assert (dom (Availability.postal_codes st)
            = list_to_set (Availability.networks st)
          /\ forall k, k ∈ Availability.networks st ->
               exists row network N,
                 row ∈ DictReader text /\ row_network row = Some network /\
                 ip_network network = Some N /\
                 Availability.is_local_network N = false /\
                 k = str_network N) as [Hdom Hkeys].
  { subst st. apply process_rows_invariant.
    - intros row st Hrow [Hdom Hkeys].
      destruct (process_row_cases row st)
        as [-> | [-> | (network & pc & N & Hn & Hpc & HN & Hloc & ->)]];
        [done | done |]. cbn. split.
      + rewrite dom_insert_L, list_to_set_app_L, Hdom.
        cbn [list_to_set foldr]. rewrite (right_id_L ∅ (∪)).
        apply union_comm_L.
      + intros k [Hk | ->%list_elem_of_singleton]%elem_of_app; [auto|].
        by exists row, network, N.
    - cbn. split; [by rewrite dom_empty_L | intros k Hk].
      by apply elem_of_nil in Hk. }
  rewrite <- size_dom, Hdom.
  split; [|split; [done|split]].
  - exists text. split; [done|]. intros k Hk. apply Hkeys.
    apply elem_of_list_to_set in Hk. exact Hk.
  - apply size_list_to_set_le.
  - apply size_list_to_set_NoDup.
Qed.

Lemma process_input_csv_keys_witness :
  dom ({[ "8.8.8.0/24" := "98765" ]} : gmap string string)
    = list_to_set ["8.8.8.0/24"] /\
  (size ({[ "8.8.8.0/24" := "98765" ]} : gmap string string)
   <= length ["8.8.8.0/24"])%nat.
Proof.
  destruct (process_input_csv_keys (L := Concrete.ipv4)
              (C := Concrete.plain_csv) "input.csv" None test_suite_world
              ["8.8.8.0/24"] {[ "8.8.8.0/24" := "98765" ]})
    as (_ & Hdom & Hsize & _).
  - vm_compute. reflexivity.
  - exact (conj Hdom Hsize).
Defined.

(** The scenario of the test suite: only the public network is kept. *)
Example process_input_csv_test_suite :
  Availability.process_input_csv (L := Concrete.ipv4)
    (C := Concrete.plain_csv) "input.csv" None test_suite_world
  = Ok (["8.8.8.0/24"], {[ "8.8.8.0/24" := "98765" ]}).
Proof. vm_compute. reflexivity. Qed.

(** C5: with a cap of one, a first row that lacks its network, or whose
    network is local, leaves the cap untouched and the public network of the
    second row is returned; a first row whose network does not parse uses
    the cap up, and the public network of the second row is lost. *)
Theorem process_input_csv_cap_counts_invalid_rows :
  Availability.process_input_csv (L := Concrete.ipv4)
    (C := Concrete.plain_csv) "input.csv" (Some 1) missing_first_world
    = Ok (["8.8.8.0/24"], {[ "8.8.8.0/24" := "98765" ]}) /\
  Availability.process_input_csv (L := Concrete.ipv4)
    (C := Concrete.plain_csv) "input.csv" (Some 1) local_first_world
    = Ok (["8.8.8.0/24"], {[ "8.8.8.0/24" := "98765" ]}) /\
  Availability.process_input_csv (L := Concrete.ipv4)
    (C := Concrete.plain_csv) "input.csv" (Some 1) invalid_first_world
    = Ok ([], ∅).
Proof. repeat split; vm_compute; reflexivity. Qed.

(* ===================================================================== *)
(** ** The simulated scan *)
(* ===================================================================== *)

(** Equality of two sets built from unions and singletons. *)
Ltac set_eq_tac := apply set_eq; intros ?; set_unfold; tauto.

Section Simulation.
Context `{L : Lib}.

Lemma simulate_hosts_marked ips R :
  Availability.simulate_hosts 0 ips R =
  R ∪ list_to_set (str_address <$> marked ips).
Proof.
  unfold marked, Availability.simulate_hosts.
  do 11 (destruct ips as [|? ips]; [cbn; set_eq_tac|]).
  cbn. set_eq_tac.
Qed.

(** The loop examines the first ten hosts, or all of them when there are
    fewer, and the test of line 58 holds for those at the indices 0, 4
    and 8. *)
Lemma simulate_hosts_loop_examined ips R :
  examined (Availability.simulate_hosts_loop 0 ips R) = take 10 ips.
Proof.
  unfold examined.
  do 10 (destruct ips as [|? ips]; [reflexivity|]).
  destruct ips; reflexivity.
Qed.

Lemma simulate_hosts_loop_responding ips R :
  responding (Availability.simulate_hosts_loop 0 ips R) = marked ips.
Proof.
  unfold responding, marked.
  do 10 (destruct ips as [|? ips]; [reflexivity|]).
  destruct ips; reflexivity.
Qed.

Lemma length_marked ips :
  length (marked ips) = ((10 `min` length ips + 3) / 4)%nat.
Proof.
  unfold marked.
  do 10 (destruct ips as [|? ips]; [reflexivity|]).
  reflexivity.
Qed.

(** One line of the networks file adds the texts of its marked hosts. *)
Lemma simulate_network_fst R w network_str :
  (Availability.simulate_network (R, w) network_str).1 =
  R ∪ marked_of_line network_str.
Proof.
  unfold Availability.simulate_network, marked_of_line.
  destruct (bool_decide _); [cbn; by rewrite (right_id_L ∅ (∪))|].
  destruct (ip_network network_str) as [N|]; cbn.
  - apply simulate_hosts_marked.
  - by rewrite (right_id_L ∅ (∪)).
Qed.

Lemma simulate_network_files st network_str :
  files (Availability.simulate_network st network_str).2 = files st.2.
Proof.
  unfold Availability.simulate_network.
  destruct (bool_decide _); [done|].
  by destruct (ip_network network_str).
Qed.

Lemma fold_simulate_network lines R w :
  (fold_left Availability.simulate_network lines (R, w)).1 =
  R ∪ ⋃ (marked_of_line <$> lines).
Proof.
  revert R w. induction lines as [|l lines IH]; intros R w.
  - cbn. by rewrite (right_id_L ∅ (∪)).
  - cbn [fold_left fmap list_fmap union_list foldr].
    destruct (Availability.simulate_network (R, w) l) as [R' w'] eqn:Hl.
    rewrite IH. pose proof (simulate_network_fst R w l) as Hfst.
    rewrite Hl in Hfst. cbn in Hfst. rewrite Hfst.
    by rewrite (assoc_L (∪)).
Qed.

(** The simulated scan of a readable file returns the marked hosts of its
    lines. *)
Lemma simulate_scan_result networks_file w text :
  read_text w networks_file = Ok text ->
  (Availability.simulate_scan networks_file w).1 =
  Ok (⋃ (marked_of_line <$> split newline (strip text))).
Proof.
  intros Hread. unfold Availability.simulate_scan.
  change (read_text (logging LogSimulationMode w) networks_file)
    with (read_text w networks_file).
  rewrite Hread.
  pose proof (fold_simulate_network (split newline (strip text)) ∅
                (logging LogSimulationMode w)) as Hfold.
  destruct (fold_left _ _ _) as [R' w'].
  cbn in *. rewrite Hfold. by rewrite (left_id_L ∅ (∪)).
Qed.

End Simulation.

(* ===================================================================== *)
(** ** Host enumeration *)
(* ===================================================================== *)

Lemma address_range_lookup v lo hi (i : nat) :
  Z.of_nat i < hi - lo ->
  address_range v lo hi !! i = Some (mkAddress v (lo + Z.of_nat i)).
Proof.
  intros Hi. unfold address_range.
  rewrite list_lookup_fmap, lookup_seq_lt by lia. reflexivity.
Qed.

Lemma length_address_range v lo hi :
  length (address_range v lo hi) = Z.to_nat (hi - lo).
Proof. unfold address_range. by rewrite length_map, length_seq. Qed.

(** In strict mode the broadcast address is the network address plus the
    host mask. *)
Lemma broadcast_address_strict (N : Network) :
  strict N -> broadcast_address N = network_address N + hostmask N.
Proof.
  intros (_ & _ & Hland). unfold broadcast_address.
  symmetry. by apply Z.add_nocarry_lor.
Qed.

Lemma NoDup_address_range v lo hi : NoDup (address_range v lo hi).
Proof.
  unfold address_range. apply NoDup_fmap_2; [|apply NoDup_seq].
  intros i j Hij. injection Hij. lia.
Qed.

Lemma NoDup_hosts (N : Network) : NoDup (hosts N).
Proof.
  unfold hosts.
  destruct (prefixlen N =? max_prefixlen (net_version N)).
  - apply NoDup_singleton.
  - destruct (prefixlen N =? max_prefixlen (net_version N) - 1);
      [apply NoDup_address_range|].
    destruct (net_version N); apply NoDup_address_range.
Qed.

(** The number of hosts of a network: 1, 2, 3, 6, 7 or at least 10. *)
Lemma length_hosts_strict (N : Network) :
  strict N ->
  length (hosts N) = 1%nat \/ length (hosts N) = 2%nat \/
  length (hosts N) = 3%nat \/ length (hosts N) = 6%nat \/
  length (hosts N) = 7%nat \/ (10 <= length (hosts N))%nat.
Proof.
  intros Hstrict. pose proof Hstrict as ([Hlo Hhi] & _ & _).
  unfold hosts. rewrite (broadcast_address_strict N Hstrict).
  unfold hostmask.
  set (k := max_prefixlen (net_version N) - prefixlen N) in *.
  destruct (Z.eqb_spec (prefixlen N) (max_prefixlen (net_version N)))
    as [|Hmax]; [by left|].
  destruct (Z.eqb_spec (prefixlen N) (max_prefixlen (net_version N) - 1))
    as [Hone|Hone].
  { right; left. rewrite length_address_range.
    replace k with 1 by lia. change (Z.ones 1) with 1. lia. }
  assert (2 <= k) as Hk by lia.
  assert (k = 2 \/ k = 3 \/ 4 <= k) as [Hk2 | [Hk3 | Hk4]] by lia.
  - rewrite Hk2. change (Z.ones 2) with 3.
    destruct (net_version N); rewrite length_address_range.
    + right; left. lia.
    + right; right; left. lia.
  - rewrite Hk3. change (Z.ones 3) with 7.
    destruct (net_version N); rewrite length_address_range.
    + right; right; right; left. lia.
    + right; right; right; right; left. lia.
  - assert (2 ^ 4 <= 2 ^ k) by (apply Z.pow_le_mono_r; lia).
    change (2 ^ 4) with 16 in *.
    rewrite Z.ones_equiv.
    do 5 right.
    destruct (net_version N); rewrite length_address_range; lia.
Qed.

(** The first ten hosts of a network with prefix length 24. *)
Lemma hosts_slash24 (N : Network) (i : nat) :
  strict N -> prefixlen N = 24 -> (i < 10)%nat ->
  hosts N !! i = Some (host_at N (1 + Z.of_nat i)).
Proof.
  intros Hstrict Hlen Hi. unfold hosts, host_at.
  rewrite (broadcast_address_strict N Hstrict). unfold hostmask.
  rewrite Hlen. destruct (net_version N); cbn [max_prefixlen].
  - change (24 =? 32) with false. change (24 =? 32 - 1) with false.
    cbn match. rewrite address_range_lookup.
    + f_equal. f_equal. lia.
    + change (Z.ones (32 - 24)) with 255. lia.
  - change (24 =? 128) with false. change (24 =? 128 - 1) with false.
    cbn match. rewrite address_range_lookup.
    + f_equal. f_equal. lia.
    + rewrite Z.ones_equiv.
      assert (2 ^ 8 <= 2 ^ (128 - 24)) by (apply Z.pow_le_mono_r; lia).
      change (2 ^ 8) with 256 in *. lia.
Qed.

Lemma length_hosts_slash24 (N : Network) :
  strict N -> prefixlen N = 24 -> (10 <= length (hosts N))%nat.
Proof.
  intros Hstrict Hlen.
  pose proof (hosts_slash24 N 9 Hstrict Hlen ltac:(lia)) as H9.
  apply lookup_lt_Some in H9. lia.
Qed.

Lemma marked_hosts_slash24 (N : Network) :
  strict N -> prefixlen N = 24 ->
  marked_hosts N = [host_at N 1; host_at N 5; host_at N 9].
Proof.
  intros Hstrict Hlen. unfold marked_hosts, marked. cbn [omap list_omap].
  rewrite !(hosts_slash24 N) by (done || lia). reflexivity.
Qed.

(* ===================================================================== *)
(** ** Claims about the reachability source *)
(* ===================================================================== *)

(** C6: for every network the loop of the simulation examines the first ten
    hosts, or all of them when there are fewer, and the test of line 58
    holds for those at the indices 0, 4 and 8; their texts are what is added
    to the set.  The share of the examined hosts that respond is 1 of 1, 1 of
    2, 1 of 3, 2 of 6, 2 of 7 or 3 of 10, and a quarter for no network: a
    network with ten hosts or more has ten examined and three responding
    hosts, whatever its size. *)
Theorem simulated_share `{L : Lib} (N : Network) (R : gset string) :
  strict N ->
  examined (Availability.simulate_hosts_loop 0 (hosts N) R)
    = take 10 (hosts N) /\
  responding (Availability.simulate_hosts_loop 0 (hosts N) R)
    = marked_hosts N /\
  (Availability.simulate_hosts_loop 0 (hosts N) R).1 =
    R ∪ list_to_set
          (str_address <$>
           responding (Availability.simulate_hosts_loop 0 (hosts N) R)) /\
  length (examined (Availability.simulate_hosts_loop 0 (hosts N) R))
    = (10 `min` length (hosts N))%nat /\
  (4 * length (responding (Availability.simulate_hosts_loop 0 (hosts N) R))
   <> length (examined (Availability.simulate_hosts_loop 0 (hosts N) R)))%nat
  /\
  ((10 <= length (hosts N))%nat ->
   length (examined (Availability.simulate_hosts_loop 0 (hosts N) R))
     = 10%nat /\
   length (responding (Availability.simulate_hosts_loop 0 (hosts N) R))
     = 3%nat).
Proof.
  intros Hstrict.
  rewrite simulate_hosts_loop_examined, simulate_hosts_loop_responding.
  fold (marked_hosts N). unfold marked_hosts.
  rewrite length_marked, length_take.
  repeat split.
  - apply simulate_hosts_marked.
  - destruct (length_hosts_strict N Hstrict)
      as [Hlen | [Hlen | [Hlen | [Hlen | [Hlen | Hlen]]]]];
      [rewrite Hlen; cbn; lia .. | rewrite Nat.min_l by done; cbn; lia].
  - by rewrite Nat.min_l.
  - by rewrite Nat.min_l.
Qed.

Lemma simulated_share_witness :
  examined (Availability.simulate_hosts_loop (L := Concrete.ipv4) 0
              (hosts net_8_8_8_0) ∅) = take 10 (hosts net_8_8_8_0) /\
  length (examined (Availability.simulate_hosts_loop (L := Concrete.ipv4) 0
                      (hosts net_8_8_8_0) ∅)) = 10%nat /\
  length (responding (Availability.simulate_hosts_loop (L := Concrete.ipv4) 0
                        (hosts net_8_8_8_0) ∅)) = 3%nat.
Proof.
  destruct (simulated_share (L := Concrete.ipv4) net_8_8_8_0 ∅)
    as (Hexamined & _ & _ & _ & _ & Hten).
  - unfold strict. vm_compute. repeat split; intros [=].
  - split; [exact Hexamined|]. apply Hten. vm_compute. lia.
Defined.

(** The run of the loop on 8.8.8.0/24: ten hosts are examined and three of
    them respond. *)
Example simulate_hosts_loop_8_8_8_0 :
  Availability.simulate_hosts_loop (L := Concrete.ipv4) 0 (hosts net_8_8_8_0) ∅
  = ({[ "8.8.8.1"; "8.8.8.5"; "8.8.8.9" ]},
     [ (host_at net_8_8_8_0 1, true); (host_at net_8_8_8_0 2, false);
       (host_at net_8_8_8_0 3, false); (host_at net_8_8_8_0 4, false);
       (host_at net_8_8_8_0 5, true); (host_at net_8_8_8_0 6, false);
       (host_at net_8_8_8_0 7, false); (host_at net_8_8_8_0 8, false);
       (host_at net_8_8_8_0 9, true); (host_at net_8_8_8_0 10, false) ]).
Proof. vm_compute. reflexivity. Qed.

(** C7, as the code has it: the returned set is the union over the lines of
    the file, so that another network of the file can add further hosts of
    a network with prefix length 24.  With 8.8.8.2/31 and 8.8.8.12/30 next
    to 8.8.8.0/24 the set holds five hosts of 8.8.8.0/24, one of them at
    the index 1 and one at the index 12 of its enumeration. *)
Lemma simulated_scan_overlapping_networks :
  (Availability.simulate_scan (L := Concrete.ipv4) "networks.txt"
     overlapping_networks_world).1
  = Ok {[ "8.8.8.1"; "8.8.8.5"; "8.8.8.9"; "8.8.8.2"; "8.8.8.13" ]} /\
  ip_network (Lib := Concrete.ipv4) "8.8.8.0/24" = Some net_8_8_8_0 /\
  str_address (Lib := Concrete.ipv4) <$> hosts net_8_8_8_0 !! 1%nat
  = Some "8.8.8.2" /\
  str_address (Lib := Concrete.ipv4) <$> hosts net_8_8_8_0 !! 12%nat
  = Some "8.8.8.13" /\
  indices_in (L := Concrete.ipv4) net_8_8_8_0
    {[ "8.8.8.1"; "8.8.8.5"; "8.8.8.9"; "8.8.8.2"; "8.8.8.13" ]}
  = [0; 1; 4; 8; 12]%nat.
Proof. repeat split; vm_compute; reflexivity. Qed.

(** C7, amended: for a network with prefix length 24 on a line of the
    networks file, the hosts at the indices 0 to 9 are the ten addresses
    after the network address, the loop examines these ten and no other
    host, and processing the line adds the texts of the hosts at the indices
    0, 4 and 8 to the reachable set and nothing else.  The set that the
    simulated scan returns holds these three texts; any other text in it was
    added for another line of the file.  So when no other line adds a host
    of the network, and no two hosts of the network are printed alike, the
    hosts of the network in the returned set are exactly those at the
    indices 0, 4 and 8. *)
Theorem simulated_scan_slash24 `{L : Lib} (N : Network)
    networks_file (w : World) text network_str :
  strict N -> prefixlen N = 24 ->
  read_text w networks_file = Ok text ->
  network_str ∈ split newline (strip text) ->
  network_str <> "" ->
  ip_network network_str = Some N ->
  (forall i : nat, (i < 10)%nat ->
     hosts N !! i = Some (host_at N (1 + Z.of_nat i))) /\
  (forall R : gset string,
     examined (Availability.simulate_hosts_loop 0 (hosts N) R)
       = take 10 (hosts N) /\
     Availability.simulate_hosts 0 (hosts N) R =
     R ∪ {[ str_address (host_at N 1); str_address (host_at N 5);
            str_address (host_at N 9) ]}) /\
  exists reachable_ips : gset string,
    (Availability.simulate_scan networks_file w).1 = Ok reachable_ips /\
    {[ str_address (host_at N 1); str_address (host_at N 5);
       str_address (host_at N 9) ]} ⊆ reachable_ips /\
    (forall x, x ∈ reachable_ips <->
       x ∈ ({[ str_address (host_at N 1); str_address (host_at N 5);
               str_address (host_at N 9) ]} : gset string) \/
       exists other, other ∈ split newline (strip text) /\
                     other <> network_str /\ x ∈ marked_of_line other) /\
    ((forall other ip, other ∈ split newline (strip text) ->
                       other <> network_str -> ip ∈ hosts N ->
                       str_address ip ∉ marked_of_line other) ->
     (forall a b, a ∈ hosts N -> b ∈ hosts N ->
                  str_address a = str_address b -> a = b) ->
     forall (i : nat) ip, hosts N !! i = Some ip ->
       str_address ip ∈ reachable_ips <-> i = 0%nat \/ i = 4%nat \/ i = 8%nat).
Proof.
  intros Hstrict Hlen Hread Hline Hne HN.
  pose proof (hosts_slash24 N 0 Hstrict Hlen ltac:(lia)) as H0.
  pose proof (hosts_slash24 N 4 Hstrict Hlen ltac:(lia)) as H4.
  pose proof (hosts_slash24 N 8 Hstrict Hlen ltac:(lia)) as H8.
  change (1 + Z.of_nat 0) with 1 in H0. change (1 + Z.of_nat 4) with 5 in H4.
  change (1 + Z.of_nat 8) with 9 in H8.
  assert (marked_of_line network_str =
          {[ str_address (host_at N 1); str_address (host_at N 5);
             str_address (host_at N 9) ]}) as Hown.
  { unfold marked_of_line. rewrite bool_decide_eq_false_2 by done.
    rewrite HN, (marked_hosts_slash24 N Hstrict Hlen). cbn. set_eq_tac. }
  split; [intros i Hi; by apply hosts_slash24|].
  split.
  { intros R. split; [apply simulate_hosts_loop_examined|].
    rewrite simulate_hosts_marked.
    fold (marked_hosts N). rewrite (marked_hosts_slash24 N Hstrict Hlen).
    cbn. set_eq_tac. }
  assert (forall x,
            x ∈ ⋃ (marked_of_line <$> split newline (strip text)) <->
            x ∈ marked_of_line network_str \/
            exists other, other ∈ split newline (strip text) /\
                          other <> network_str /\ x ∈ marked_of_line other)
    as Hunion.
  { intros x. rewrite elem_of_union_list. split.
    - intros (X & HX & Hx). apply list_elem_of_fmap in HX as (l & -> & Hl).
      destruct (decide (l = network_str)) as [-> | Hother]; [by left|].
      right. by exists l.
    - intros [Hx | (other & Hother & _ & Hx)].
      + exists (marked_of_line network_str). split; [|done].
        apply list_elem_of_fmap. by exists network_str.
      + exists (marked_of_line other). split; [|done].
        apply list_elem_of_fmap. by exists other. }
  eexists. split; [by apply simulate_scan_result|].
  rewrite <- Hown. split; [|split].
  - intros x Hx. apply Hunion. by left.
  - exact Hunion.
  - intros Hdisjoint Hinj i ip Hi.
    assert (ip ∈ hosts N) as Hip by (by eapply list_elem_of_lookup_2).
    rewrite Hunion, Hown. split.
    + intros [Hx | (other & Hother & Hneq & Hx)].
      * assert (forall (j : nat) z, hosts N !! j = Some (host_at N z) ->
                  str_address ip = str_address (host_at N z) -> i = j)
          as Hindex.
        { intros j z Hj Heq. eapply NoDup_lookup; [apply NoDup_hosts| |].
          - exact Hi.
          - rewrite Hj. f_equal. symmetry. apply Hinj; [done| |done].
            by eapply list_elem_of_lookup_2. }
        revert Hx. rewrite !elem_of_union, !elem_of_singleton.
        intros [[Hx | Hx] | Hx].
        -- left. by apply (Hindex 0%nat 1).
        -- right; left. by apply (Hindex 4%nat 5).
        -- right; right. by apply (Hindex 8%nat 9).
      * by destruct (Hdisjoint other ip).
    + intros Hcases. left.
      rewrite !elem_of_union, !elem_of_singleton.
      destruct Hcases as [-> | [-> | ->]].
      * left; left. rewrite H0 in Hi. by injection Hi as <-.
      * left; right. rewrite H4 in Hi. by injection Hi as <-.
      * right. rewrite H8 in Hi. by injection Hi as <-.
Qed.

Lemma simulated_scan_slash24_witness :
  exists reachable_ips : gset string,
    (Availability.simulate_scan (L := Concrete.ipv4) "networks.txt"
       networks_world).1 = Ok reachable_ips /\
    {[ "8.8.8.1"; "8.8.8.5"; "8.8.8.9" ]} ⊆ reachable_ips.
Proof.
  destruct (simulated_scan_slash24 (L := Concrete.ipv4) net_8_8_8_0
              "networks.txt" networks_world
              (text_of_lines ["8.8.8.0/24"; "1.1.1.0/30"]) "8.8.8.0/24")
    as (_ & _ & reachable_ips & Hrun & Hsub & _).
  - unfold strict. vm_compute. repeat split; intros [=].
  - reflexivity.
  - vm_compute. reflexivity.
  - vm_compute. apply list_elem_of_here.
  - discriminate.
  - vm_compute. reflexivity.
  - exists reachable_ips. split; [exact Hrun | exact Hsub].
Defined.

(** The simulated scan of the two-line networks file, whose networks do
    not overlap: of the hosts of 8.8.8.0/24 those at the indices 0, 4 and 8
    are in the set. *)
Example simulate_scan_networks_world :
  (Availability.simulate_scan (L := Concrete.ipv4) "networks.txt"
     networks_world).1
  = Ok {[ "8.8.8.1"; "8.8.8.5"; "8.8.8.9"; "1.1.1.1" ]} /\
  indices_in (L := Concrete.ipv4) net_8_8_8_0
    {[ "8.8.8.1"; "8.8.8.5"; "8.8.8.9"; "1.1.1.1" ]} = [0; 4; 8]%nat.
Proof. split; vm_compute; reflexivity. Qed.

(** C9: when the networks file does not exist, the call raises the
    file-not-found error at once, in either mode, and leaves the world as
    it was: nothing is logged, no process is started, no file is touched.
    When the file exists the check passes, and the call is the simulated
    or the delegated scan. *)
Theorem get_zmap_scan_results_precondition `{L : Lib} `{P : Subprocess}
    networks_file output_file bandwidth port simulation_mode (w : World) :
  (path_exists w networks_file = false ->
   Availability.get_zmap_scan_results networks_file output_file bandwidth
     port simulation_mode w
   = (Raise (FileNotFoundError
               ("Networks file not found: " +:+ networks_file)), w)) /\
  (path_exists w networks_file = true ->
   Availability.check_networks_file networks_file w = Ok tt /\
   Availability.get_zmap_scan_results networks_file output_file bandwidth
     port simulation_mode w
   = if simulation_mode
     then Availability.simulate_scan networks_file w
     else Availability.zmap_scan networks_file output_file bandwidth port w).
Proof.
  unfold Availability.get_zmap_scan_results, Availability.check_networks_file.
  split; intros ->; [reflexivity | by split].
Qed.

Lemma get_zmap_scan_results_precondition_witness :
  (Availability.get_zmap_scan_results (L := Concrete.ipv4)
     (P := Concrete.silent_zmap) "networks.txt" None "10M" 80 true empty_world
   = (Raise (FileNotFoundError "Networks file not found: networks.txt"),
      empty_world)) /\
  (Availability.get_zmap_scan_results (L := Concrete.ipv4)
     (P := Concrete.silent_zmap) "networks.txt" None "10M" 80 false empty_world
   = (Raise (FileNotFoundError "Networks file not found: networks.txt"),
      empty_world)) /\
  Availability.check_networks_file "networks.txt" networks_world = Ok tt.
Proof.
  split; [|split].
  - apply (proj1 (get_zmap_scan_results_precondition (L := Concrete.ipv4)
                    (P := Concrete.silent_zmap) "networks.txt" None "10M" 80
                    true empty_world)).
    vm_compute. reflexivity.
  - apply (proj1 (get_zmap_scan_results_precondition (L := Concrete.ipv4)
                    (P := Concrete.silent_zmap) "networks.txt" None "10M" 80
                    false empty_world)).
    vm_compute. reflexivity.
  - apply (proj2 (get_zmap_scan_results_precondition (L := Concrete.ipv4)
                    (P := Concrete.silent_zmap) "networks.txt" None "10M" 80
                    true networks_world)).
    vm_compute. reflexivity.
Defined.

(** The simulated scan of a regular file returns a set and starts no
    process. *)
Lemma get_zmap_scan_results_simulated `{L : Lib} `{P : Subprocess}
    networks_file output_file bandwidth port (w : World) text :
  files w !! networks_file = Some (File text) ->
  exists reachable_ips w',
    Availability.get_zmap_scan_results networks_file output_file bandwidth
      port true w = (Ok reachable_ips, w') /\
    reachable_ips = ⋃ (marked_of_line <$> split newline (strip text)) /\
    spawned w' = spawned w.
Proof.
  intros Hfile.
  assert (read_text w networks_file = Ok text) as Hread
    by (unfold read_text; by rewrite Hfile).
  unfold Availability.get_zmap_scan_results, Availability.check_networks_file,
    path_exists.
  rewrite bool_decide_eq_true_2 by (by rewrite Hfile).
  pose proof (simulate_scan_result networks_file w text Hread) as Hres.
  unfold Availability.simulate_scan in *.
  change (read_text (logging LogSimulationMode w) networks_file)
    with (read_text w networks_file) in *.
  rewrite Hread in *.
  assert (forall lines st,
             spawned (fold_left Availability.simulate_network lines st).2
             = spawned st.2) as Hspawned.
  { induction lines as [|l lines IH]; intros st; [done|].
    cbn [fold_left]. rewrite IH. unfold Availability.simulate_network.
    destruct (bool_decide _); [done|]. by destruct (ip_network l). }
  specialize (Hspawned (split newline (strip text))
                (∅, logging LogSimulationMode w)).
  destruct (fold_left _ _ _) as [R' w'].
  cbn in *. injection Hres as ->. eauto.
Qed.

(** C10: in delegated mode, when the scan tool exits with status 0 and
    prints nothing, the call returns the set whose only element is the
    empty text, which is not the empty set. *)
Theorem get_zmap_scan_results_empty_output `{L : Lib} `{P : Subprocess}
    networks_file output_file bandwidth port (w : World) stderr files' :
  path_exists w networks_file = true ->
  subprocess_run
    (Availability.zmap_command networks_file output_file bandwidth port)
    (files w) = (Completed 0 "" stderr, files') ->
  (Availability.get_zmap_scan_results networks_file output_file bandwidth
     port false w).1 = Ok {[ "" ]} /\
  ({[ "" ]} : gset string) <> ∅.
Proof.
  intros Hexists Hrun.
  unfold Availability.get_zmap_scan_results, Availability.check_networks_file,
    Availability.zmap_scan.
  rewrite Hexists. cbn [files logging]. rewrite Hrun. cbn.
  split.
  - reflexivity.
  - intros Hempty. apply (non_empty_singleton_L (C := gset string) "").
    exact Hempty.
Qed.

Lemma get_zmap_scan_results_empty_output_witness :
  (Availability.get_zmap_scan_results (L := Concrete.ipv4)
     (P := Concrete.silent_zmap) "networks.txt" None "10M" 80 false
     networks_world).1 = Ok {[ "" ]}.
Proof.
  refine (proj1 (get_zmap_scan_results_empty_output (L := Concrete.ipv4)
                   (P := Concrete.silent_zmap) "networks.txt" None "10M" 80
                   networks_world "" (files networks_world) _ _)).
  - vm_compute. reflexivity.
  - reflexivity.
Defined.

(** Output that consists of white space only gives the same set. *)
Lemma get_zmap_scan_results_blank_output `{L : Lib} `{P : Subprocess}
    networks_file output_file bandwidth port (w : World)
    stdout stderr files' :
  path_exists w networks_file = true ->
  subprocess_run
    (Availability.zmap_command networks_file output_file bandwidth port)
    (files w) = (Completed 0 stdout stderr, files') ->
  strip stdout = "" ->
  (Availability.get_zmap_scan_results networks_file output_file bandwidth
     port false w).1 = Ok {[ "" ]}.
Proof.
  intros Hexists Hrun Hblank.
  unfold Availability.get_zmap_scan_results, Availability.check_networks_file,
    Availability.zmap_scan.
  rewrite Hexists. cbn [files logging]. rewrite Hrun. cbn. rewrite Hblank.
  reflexivity.
Qed.

(** The output of the test suite: two addresses, one per line. *)
Example split_scan_output :
  split newline (strip (text_of_lines ["8.8.8.1"; "8.8.8.3"; ""]))
  = ["8.8.8.1"; "8.8.8.3"].
Proof. reflexivity. Qed.

(* ===================================================================== *)
(** ** Facts about texts *)
(* ===================================================================== *)

Lemma append_cons c (x t : string) : String c x +:+ t = String c (x +:+ t).
Proof. reflexivity. Qed.

Lemma append_nil (t : string) : "" +:+ t = t.
Proof. reflexivity. Qed.

Lemma spaceless_no_newline c s :
  spaceless (String c s) = true -> c <> newline.
Proof.
  cbn [spaceless]. intros [Hc _]%andb_true_iff Heq. subst c. done.
Qed.

(** A text without the separator is one field. *)
Lemma split_spaceless s : spaceless s = true -> split newline s = [s].
Proof.
  induction s as [|c s IH]; [done|]. intros Hs.
  pose proof (spaceless_no_newline c s Hs) as Hc.
  cbn [spaceless] in Hs. apply andb_true_iff in Hs as [_ Hs].
  cbn [split]. rewrite decide_False by done. by rewrite IH.
Qed.

(** The field before the first separator is split off. *)
Lemma split_app x t :
  spaceless x = true ->
  split newline (x +:+ String newline t) = x :: split newline t.
Proof.
  induction x as [|c x IH]; intros Hx.
  - rewrite append_nil. cbn [split].
    by destruct (decide (newline = newline)).
  - pose proof (spaceless_no_newline c x Hx) as Hc.
    cbn [spaceless] in Hx. apply andb_true_iff in Hx as [_ Hx].
    rewrite append_cons. cbn [split]. rewrite decide_False by done.
    by rewrite IH.
Qed.

(** Splitting undoes joining. *)
Lemma split_join (l : list string) :
  l <> [] -> Forall (fun s => spaceless s = true) l ->
  split newline (join (String newline "") l) = l.
Proof.
  intros Hne Hall. induction Hall as [|x l Hx Hall IH]; [done|].
  destruct l as [|y l].
  - cbn [join]. by apply split_spaceless.
  - change (join (String newline "") (x :: y :: l))
      with (x +:+ String newline "" +:+ join (String newline "") (y :: l)).
    rewrite append_cons, append_nil.
    rewrite split_app by done. by rewrite IH.
Qed.

Lemma lstrip_word s : word s -> lstrip s = s.
Proof.
  intros [Hne Hs]. destruct s as [|c s]; [done|].
  cbn [spaceless] in Hs. apply andb_true_iff in Hs as [Hc _].
  cbn [lstrip]. by destruct (isspace c).
Qed.

Lemma rstrip_word s : word s -> rstrip s = s.
Proof.
  intros [Hne Hs]. induction s as [|c s IH]; [done|].
  cbn [spaceless] in Hs. apply andb_true_iff in Hs as [Hc Hs].
  cbn [rstrip]. destruct s as [|c' s].
  - cbn. by destruct (isspace c).
  - rewrite IH by done. reflexivity.
Qed.

(** Stripping on the right goes past a prefix when something is left. *)
Lemma rstrip_app x y :
  rstrip y <> "" -> rstrip (x +:+ y) = x +:+ rstrip y.
Proof.
  intros Hy. induction x as [|c x IH]; [done|].
  rewrite !append_cons. cbn [rstrip]. rewrite IH.
  destruct (x +:+ rstrip y) eqn:Hxy; [|done].
  destruct x; [by rewrite append_nil in Hxy | by rewrite append_cons in Hxy].
Qed.

(** White space at the end is dropped. *)
Lemma rstrip_app_blank x y :
  rstrip y = "" -> rstrip (x +:+ y) = rstrip x.
Proof.
  intros Hy. induction x as [|c x IH]; [by rewrite append_nil|].
  rewrite append_cons. cbn [rstrip]. by rewrite IH.
Qed.

Lemma join_words_nonempty (l : list string) :
  l <> [] -> Forall word l -> join (String newline "") l <> "".
Proof.
  intros Hne Hall. destruct Hall as [|x l [Hx _] _]; [done|].
  destruct x as [|c x]; [done|]. by destruct l.
Qed.

Lemma lstrip_join (l : list string) :
  l <> [] -> Forall word l ->
  lstrip (join (String newline "") l) = join (String newline "") l.
Proof.
  intros Hne Hall. destruct Hall as [|x l Hx _]; [done|].
  destruct Hx as [Hne' Hs]. destruct x as [|c x]; [done|].
  cbn [spaceless] in Hs. apply andb_true_iff in Hs as [Hc _].
  destruct l; cbn [join]; rewrite ?append_cons; cbn [lstrip];
    by destruct (isspace c).
Qed.

Lemma rstrip_join (l : list string) :
  l <> [] -> Forall word l ->
  rstrip (join (String newline "") l) = join (String newline "") l.
Proof.
  intros Hne Hall. induction Hall as [|x l Hx Hall IH]; [done|].
  destruct l as [|y l].
  - cbn [join]. by apply rstrip_word.
  - change (join (String newline "") (x :: y :: l))
      with (x +:+ (String newline "" +:+ join (String newline "") (y :: l))).
    rewrite rstrip_app.
    + f_equal. rewrite (rstrip_app (String newline ""));
        rewrite IH by done; [done|].
      by apply join_words_nonempty.
    + rewrite (rstrip_app (String newline ""));
        rewrite IH by done; [done|].
      by apply join_words_nonempty.
Qed.


(** So are words that are each followed by a line break. *)
Lemma split_strip_lines (l : list string) :
  l <> [] -> Forall word l ->
  split newline (strip (join (String newline "") l +:+ String newline "")) = l.
Proof.
  intros Hne Hall. unfold strip.
  assert (lstrip (join (String newline "") l +:+ String newline "")
          = join (String newline "") l +:+ String newline "") as ->.
  { pose proof (lstrip_join l Hne Hall) as Hl.
    pose proof (join_words_nonempty l Hne Hall) as Hj.
    destruct (join (String newline "") l) as [|c s]; [done|].
    rewrite append_cons. cbn [lstrip] in *. destruct (isspace c); [|done].
    exfalso. clear -Hl. 
    assert (String.length (lstrip s) <= String.length s)%nat as Hlen.
    { clear. induction s as [|c' s IH]; cbn; [lia|].
      destruct (isspace c'); cbn; lia. }
    rewrite Hl in Hlen. cbn in Hlen. lia. }
  rewrite rstrip_app_blank by done. rewrite rstrip_join by done.
  apply split_join; [done|]. eapply Forall_impl; [exact Hall|].
  by intros s [_ Hs].
Qed.
(* ===================================================================== *)
(** ** More on the input loader *)
(* ===================================================================== *)

Section LoaderOrder.
Context `{L : Lib}.
Implicit Types (st : Availability.loader_state) (row : Row).

(** What one round of the loop does to the list and to the map. *)
Lemma process_row_retained row st :
  Availability.networks (Availability.process_row row st) =
    Availability.networks st ++ (option_list (retained row)).*1 /\
  Availability.postal_codes (Availability.process_row row st) =
    assign_all (option_list (retained row)) (Availability.postal_codes st).
Proof.
  unfold Availability.process_row, retained.
  destruct (row_network row) as [network|];
    [|by rewrite app_nil_r].
  destruct (row_postal_code row) as [pc|]; [|by rewrite app_nil_r].
  rewrite <- negb_andb.
  destruct (truthy_str (Some network) && truthy_str (Some pc));
    [|by rewrite app_nil_r].
  cbn [negb]. destruct (ip_network network) as [N|]; [|by rewrite app_nil_r].
  destruct (Availability.is_local_network N); [by rewrite app_nil_r|].
  done.
Qed.

(** The loop without a cap. *)
Lemma process_rows_unbounded rows st :
  Availability.networks (Availability.process_rows None rows st) =
    Availability.networks st ++ (omap retained rows).*1 /\
  Availability.postal_codes (Availability.process_rows None rows st) =
    assign_all (omap retained rows) (Availability.postal_codes st).
Proof.
  revert st. induction rows as [|row rows IH]; intros st.
  - cbn. by rewrite app_nil_r.
  - cbn [Availability.process_rows Availability.cap_reached].
    destruct (IH (Availability.process_row row st)) as [-> ->].
    destruct (process_row_retained row st) as [-> ->].
    cbn [omap list_omap]. destruct (retained row) as [[k pc]|]; cbn.
    + by rewrite <- app_assoc.
    + by rewrite app_nil_r.
Qed.

(** A capped run is the run without cap on the rows read before the cap
    was reached. *)
Lemma process_rows_capped max_networks rows st :
  exists k : nat,
    Availability.process_rows max_networks rows st =
    Availability.process_rows None (take k rows) st.
Proof.
  revert st. induction rows as [|row rows IH]; intros st.
  - by exists 0%nat.
  - cbn [Availability.process_rows].
    destruct (Availability.cap_reached _ _).
    + by exists 0%nat.
    + destruct (IH (Availability.process_row row st)) as [k Hk].
      exists (S k). by rewrite Hk.
Qed.

(** A cap of zero is no cap. *)
Lemma process_rows_zero rows st :
  Availability.process_rows (Some 0) rows st =
  Availability.process_rows None rows st.
Proof.
  revert st. induction rows as [|row rows IH]; intros st; [done|].
  cbn [Availability.process_rows Availability.cap_reached].
  change (negb (0 =? 0)) with false. cbn [andb]. apply IH.
Qed.

(** An invariant of the loop that every round keeps when the cap is not
    reached. *)
Lemma process_rows_guarded_invariant (Q : Availability.loader_state -> Prop)
    max_networks rows :
  (forall row st,
     Q st ->
     Availability.cap_reached max_networks (Availability.row_count st)
       = false ->
     Q (Availability.process_row row st)) ->
  forall st, Q st -> Q (Availability.process_rows max_networks rows st).
Proof.
  intros Hstep. induction rows as [|row rows IH]; intros st HQ; [done|].
  cbn [Availability.process_rows].
  destruct (Availability.cap_reached _ _) eqn:Hcap; [done|].
  apply IH. by apply Hstep.
Qed.

(** The counter counts at least the rows that were kept. *)
Lemma process_row_count row st :
  Availability.row_count st <=
    Availability.row_count (Availability.process_row row st)
    <= Availability.row_count st + 1 /\
  Z.of_nat (length (Availability.networks (Availability.process_row row st)))
  - Z.of_nat (length (Availability.networks st))
  <= Availability.row_count (Availability.process_row row st)
     - Availability.row_count st.
Proof.
  destruct (process_row_cases row st)
    as [-> | [-> | (network & pc & N & _ & _ & _ & _ & ->)]]; cbn.
  - lia.
  - lia.
  - rewrite length_app. cbn. lia.
Qed.

End LoaderOrder.

(** The value of a key is the one that was assigned last. *)
Lemma assign_all_not_in (entries : list (string * string)) m k :
  k ∉ entries.*1 -> assign_all entries m !! k = m !! k.
Proof.
  revert m. induction entries as [|[k' v] entries IH]; intros m Hk; [done|].
  cbn in Hk. apply not_elem_of_cons in Hk as [Hne Hk].
  unfold assign_all. cbn [fold_left]. fold (assign_all entries).
  rewrite IH by done. cbn. by rewrite lookup_insert_ne.
Qed.

Lemma assign_all_last (l1 l2 : list (string * string)) m k v :
  k ∉ l2.*1 -> assign_all (l1 ++ (k, v) :: l2) m !! k = Some v.
Proof.
  intros Hk. unfold assign_all. rewrite fold_left_app. cbn [fold_left].
  fold (assign_all l1 m). fold (assign_all l2).
  rewrite assign_all_not_in by done. cbn. by rewrite lookup_insert_eq.
Qed.


(** The result of the loader in terms of the rows that it kept. *)
Lemma process_input_csv_entries `{L : Lib} `{C : Csv}
    input_file max_networks (w : World) networks postal_codes :
  Availability.process_input_csv input_file max_networks w
    = Ok (networks, postal_codes) ->
  exists text (k : nat),
    read_text w input_file = Ok text /\
    networks = (omap retained (take k (DictReader text))).*1 /\
    postal_codes = assign_all (omap retained (take k (DictReader text))) ∅ /\
    (max_networks = None \/ max_networks = Some 0 ->
     take k (DictReader text) = DictReader text).
Proof.
  unfold Availability.process_input_csv.
  destruct (read_text w input_file) as [text|e] eqn:Hread; [|done].
  cbn. intros [= <- <-].
  destruct (process_rows_capped max_networks (DictReader text)
              (Availability.mkLoader [] ∅ 0)) as [k Hk].
  destruct (decide (max_networks = None \/ max_networks = Some 0))
    as [Hmax|Hmax].
  - exists text, (length (DictReader text)).
    rewrite firstn_all. split; [done|].
    assert (Availability.process_rows max_networks (DictReader text)
              (Availability.mkLoader [] ∅ 0)
            = Availability.process_rows None (DictReader text)
                (Availability.mkLoader [] ∅ 0)) as ->
      by (destruct Hmax as [-> | ->]; [done | apply process_rows_zero]).
    destruct (process_rows_unbounded (DictReader text)
                (Availability.mkLoader [] ∅ 0)) as [-> ->]. done.
  - exists text, k. split; [done|]. rewrite Hk.
    destruct (process_rows_unbounded (take k (DictReader text))
                (Availability.mkLoader [] ∅ 0)) as [-> ->]. done.
Qed.

(** X1: The returned list keeps the order of the input: it is the canonical
    texts of the rows that are kept (both fields present, network parsed and
    not local), cut off where the cap was reached, and all of them when
    there is no cap. *)
Theorem process_input_csv_order `{L : Lib} `{C : Csv}
    input_file max_networks (w : World) networks postal_codes text :
  read_text w input_file = Ok text ->
  Availability.process_input_csv input_file max_networks w
    = Ok (networks, postal_codes) ->
  networks `prefix_of` (omap retained (DictReader text)).*1 /\
  (max_networks = None \/ max_networks = Some 0 ->
   networks = (omap retained (DictReader text)).*1).
Proof.
  intros Hread Hrun.
  destruct (process_input_csv_entries _ _ _ _ _ Hrun)
    as (text' & k & Hread' & -> & _ & Hall).
  rewrite Hread in Hread'. injection Hread' as <-. split.
  - exists (omap retained (drop k (DictReader text))).*1.
    rewrite <- fmap_app, <- omap_app. by rewrite take_drop.
  - intros Hmax. by rewrite (Hall Hmax).
Qed.

Lemma process_input_csv_order_witness :
  ["8.8.8.0/24"] =
  (omap (retained (L := Concrete.ipv4))
        (DictReader (Csv := Concrete.plain_csv)
           (text_of_lines ["network,postal_code"; "192.168.1.0/24,12345";
                           "10.0.0.0/24,67890"; "172.16.0.0/24,54321";
                           "8.8.8.0/24,98765"; ""]))).*1.
Proof.
  refine (proj2 (process_input_csv_order (L := Concrete.ipv4)
                   (C := Concrete.plain_csv) "input.csv" None
                   test_suite_world ["8.8.8.0/24"]
                   {[ "8.8.8.0/24" := "98765" ]} _ _ _) _).
  - vm_compute. reflexivity.
  - vm_compute. reflexivity.
  - by left.
Defined.

(** X2: When a canonical network text is kept more than once, the map holds the
    postal code of the last row that was kept for it. *)
Theorem process_input_csv_last_row_wins `{L : Lib} `{C : Csv}
    input_file max_networks (w : World) networks postal_codes text :
  read_text w input_file = Ok text ->
  Availability.process_input_csv input_file max_networks w
    = Ok (networks, postal_codes) ->
  exists entries : list (string * string),
    entries `prefix_of` omap retained (DictReader text) /\
    networks = entries.*1 /\
    forall l1 k v l2,
      entries = l1 ++ (k, v) :: l2 -> k ∉ l2.*1 ->
      postal_codes !! k = Some v.
Proof.
  intros Hread Hrun.
  destruct (process_input_csv_entries _ _ _ _ _ Hrun)
    as (text' & k & Hread' & -> & -> & _).
  rewrite Hread in Hread'. injection Hread' as <-.
  exists (omap retained (take k (DictReader text))). split; [|split; [done|]].
  - exists (omap retained (drop k (DictReader text))).
    rewrite <- omap_app. by rewrite take_drop.
  - intros l1 key v l2 -> Hkey. by apply assign_all_last.
Qed.

Lemma process_input_csv_last_row_wins_witness :
  exists networks postal_codes,
    Availability.process_input_csv (L := Concrete.ipv4)
      (C := Concrete.plain_csv) "input.csv" None duplicate_rows_world
      = Ok (networks, postal_codes) /\
    postal_codes !! "8.8.8.0/24" = Some "11111".
Proof.
  exists ["8.8.8.0/24"; "8.8.8.0/24"], {[ "8.8.8.0/24" := "11111" ]}.
  split; [vm_compute; reflexivity|].
  destruct (process_input_csv_last_row_wins (L := Concrete.ipv4)
              (C := Concrete.plain_csv) "input.csv" None
              duplicate_rows_world ["8.8.8.0/24"; "8.8.8.0/24"]
              {[ "8.8.8.0/24" := "11111" ]}
              (text_of_lines ["network,postal_code"; "8.8.8.0/24,98765";
                              "8.8.8.0/24,11111"; ""]))
    as (entries & _ & _ & Hlast).
  - vm_compute. reflexivity.
  - vm_compute. reflexivity.
  - reflexivity.
Defined.

(** X3: With a positive cap the returned list has at most that many networks. *)
Theorem process_input_csv_cap_bound `{L : Lib} `{C : Csv}
    input_file (max_networks : Z) (w : World) networks postal_codes :
  0 < max_networks ->
  Availability.process_input_csv input_file (Some max_networks) w
    = Ok (networks, postal_codes) ->
  Z.of_nat (length networks) <= max_networks.
Proof.
  intros Hpos. unfold Availability.process_input_csv.
  destruct (read_text w input_file) as [text|e]; [|done].
  cbn. intros [= <- _].
  set (Q := fun st : Availability.loader_state =>
              Z.of_nat (length (Availability.networks st))
                <= Availability.row_count st <= max_networks).
  enough (Q (Availability.process_rows (Some max_networks) (DictReader text)
               (Availability.mkLoader [] ∅ 0))) as [H1 H2] by lia.
  apply process_rows_guarded_invariant.
  - intros row st [Hlen Hcount] Hcap. unfold Q.
    pose proof (process_row_count row st) as [Hrc Hnet].
    cbn [Availability.cap_reached] in Hcap.
    apply andb_false_iff in Hcap as [Hzero | Hlt].
    + apply negb_false_iff, Z.eqb_eq in Hzero. lia.
    + apply Z.leb_gt in Hlt. lia.
  - unfold Q. cbn. lia.
Qed.

Lemma process_input_csv_cap_bound_witness :
  Z.of_nat (length ["8.8.8.0/24"]) <= 1.
Proof.
  apply (process_input_csv_cap_bound (L := Concrete.ipv4)
           (C := Concrete.plain_csv) "input.csv" 1 duplicate_rows_world
           ["8.8.8.0/24"] {[ "8.8.8.0/24" := "98765" ]}).
  - lia.
  - vm_compute. reflexivity.
Defined.

(** X4: A cap of zero does not limit anything: the call is the call without a
    cap. *)
Theorem process_input_csv_cap_zero `{L : Lib} `{C : Csv}
    input_file (w : World) :
  Availability.process_input_csv input_file (Some 0) w =
  Availability.process_input_csv input_file None w.
Proof.
  unfold Availability.process_input_csv.
  destruct (read_text w input_file) as [text|e]; [|done].
  cbn. by rewrite process_rows_zero.
Qed.






(* ===================================================================== *)
(** ** More on the aggregator *)
(* ===================================================================== *)

Section AggregatorRows.
Context `{L : Lib}.
Implicit Types (st : Availability.aggregate) (R : gset string).

(** The hosts of one network add their rows at the end. *)
Lemma fold_record_host_rows n pc R N st :
  (fold_left (Availability.record_host n pc R) (hosts N) st).2 =
  st.2 ++ rows_of_network n pc R N.
Proof.
  unfold rows_of_network. revert st.
  induction (hosts N) as [|ip ips IH]; intros st.
  - cbn. by rewrite app_nil_r.
  - cbn [fold_left map]. rewrite IH, record_host_eq. cbn [snd].
    by rewrite <- app_assoc.
Qed.

Lemma aggregate_networks_rows networks postal_codes R st st' :
  Availability.aggregate_networks networks postal_codes R st = Ok st' ->
  st'.2 = st.2 ++ expected_rows networks postal_codes R.
Proof.
  unfold expected_rows. revert st.
  induction networks as [|n networks IH]; intros st.
  - cbn. intros [= <-]. by rewrite app_nil_r.
  - cbn [Availability.aggregate_networks omap list_omap].
    destruct (ip_network n) as [N|]; [|done].
    destruct (postal_codes !! n) as [pc|]; [|done].
    intros Hrun. rewrite (IH _ Hrun), fold_record_host_rows.
    cbn [concat]. by rewrite <- app_assoc.
Qed.

(** The networks before the first failure are processed in full. *)
Lemma aggregate_networks_app pre rest postal_codes R st :
  Forall (fun n => is_Some (ip_network n) /\ is_Some (postal_codes !! n))
         pre ->
  exists st',
    Availability.aggregate_networks (pre ++ rest) postal_codes R st =
    Availability.aggregate_networks rest postal_codes R st'.
Proof.
  intros Hpre. revert st.
  induction Hpre as [|n pre [[N HN] [pc Hpc]] _ IH]; intros st.
  - by exists st.
  - cbn [app Availability.aggregate_networks]. rewrite HN, Hpc. apply IH.
Qed.

(** The outcome depends on the reachable set only through the texts of the
    hosts. *)
Lemma record_host_agree n pc R R' st ip :
  (str_address ip ∈ R <-> str_address ip ∈ R') ->
  Availability.record_host n pc R st ip =
  Availability.record_host n pc R' st ip.
Proof.
  intros Hiff. rewrite !record_host_eq. unfold reachable_flag.
  by rewrite (bool_decide_ext _ _ Hiff).
Qed.

Lemma fold_record_host_agree n pc R R' ips st :
  (forall ip, ip ∈ ips -> str_address ip ∈ R <-> str_address ip ∈ R') ->
  fold_left (Availability.record_host n pc R) ips st =
  fold_left (Availability.record_host n pc R') ips st.
Proof.
  revert st. induction ips as [|ip ips IH]; intros st Hagree; [done|].
  cbn [fold_left]. rewrite (record_host_agree n pc R R') by (apply Hagree; by left).
  apply IH. intros ip' Hin. apply Hagree. by right.
Qed.

End AggregatorRows.

(** X7: The aggregator is all or nothing: it stops at the first network that
    does not parse with [ValueError], and at the first network without a
    postal code with the [KeyError] of that network. *)
Theorem calculate_availability_first_failure `{L : Lib}
    (pre : list string) (n : string) (post : list string)
    (postal_codes : gmap string string) (reachable_ips : gset string) :
  Forall (fun n => is_Some (ip_network n) /\ is_Some (postal_codes !! n))
         pre ->
  (ip_network n = None ->
   Availability.calculate_availability (pre ++ n :: post) postal_codes
     reachable_ips = Raise ValueError) /\
  (is_Some (ip_network n) -> postal_codes !! n = None ->
   Availability.calculate_availability (pre ++ n :: post) postal_codes
     reachable_ips = Raise (KeyError n)).
Proof.
  intros Hpre. unfold Availability.calculate_availability.
  destruct (aggregate_networks_app pre (n :: post) postal_codes
              reachable_ips ([], []) Hpre) as [st' ->].
  cbn [Availability.aggregate_networks]. split.
  - by intros ->.
  - intros [N ->] ->. done.
Qed.

Lemma calculate_availability_first_failure_witness :
  Availability.calculate_availability (L := Concrete.ipv4)
    (["8.8.8.0/30"] ++ "not-a-network" :: ["1.1.1.0/30"])
    two_postal_codes one_reachable = Raise ValueError /\
  Availability.calculate_availability (L := Concrete.ipv4)
    (["8.8.8.0/30"] ++ "9.9.9.0/30" :: ["1.1.1.0/30"])
    two_postal_codes one_reachable = Raise (KeyError "9.9.9.0/30").
Proof.
  split.
  - apply (calculate_availability_first_failure (L := Concrete.ipv4)
             ["8.8.8.0/30"] "not-a-network" ["1.1.1.0/30"]
             two_postal_codes one_reachable).
    + repeat constructor; eexists; vm_compute; reflexivity.
    + vm_compute. reflexivity.
  - apply (calculate_availability_first_failure (L := Concrete.ipv4)
             ["8.8.8.0/30"] "9.9.9.0/30" ["1.1.1.0/30"]
             two_postal_codes one_reachable).
    + repeat constructor; eexists; vm_compute; reflexivity.
    + eexists. vm_compute. reflexivity.
    + vm_compute. reflexivity.
Defined.

(** X8: The export holds one row for every usable host of every network, in
    the order of the networks and of the hosts; the row of a host carries the
    network text, the postal code of the network, and the flag 1 exactly when
    the text of the host is in the reachable set. *)
Theorem calculate_availability_rows `{L : Lib}
    (networks : list string) (postal_codes : gmap string string)
    (reachable_ips : gset string) stats rows :
  Availability.calculate_availability networks postal_codes reachable_ips
    = Ok (stats, rows) ->
  rows = expected_rows networks postal_codes reachable_ips /\
  Forall (fun row =>
            postal_codes !! rec_network row = Some (rec_postal_code row) /\
            (rec_reachable row = 1 /\ rec_ip row ∈ reachable_ips \/
             rec_reachable row = 0 /\ rec_ip row ∉ reachable_ips)) rows.
Proof.
  intros Hrun.
  pose proof (aggregate_networks_rows _ _ _ _ _ Hrun) as Hrows.
  cbn in Hrows. subst rows. split; [done|].
  unfold expected_rows. apply Forall_concat, Forall_forall.
  intros l (n & Hn & Hl)%list_elem_of_omap.
  destruct (ip_network n) as [N|]; [|done].
  destruct (postal_codes !! n) as [pc|] eqn:Hpc; [|done].
  injection Hl as <-. unfold rows_of_network. apply Forall_fmap, Forall_forall.
  intros ip _. cbn. split; [done|]. unfold reachable_flag.
  destruct (bool_decide_reflect (str_address ip ∈ reachable_ips)); auto.
Qed.

Lemma calculate_availability_rows_witness :
  exists stats rows,
    Availability.calculate_availability (L := Concrete.ipv4)
      two_networks two_postal_codes one_reachable = Ok (stats, rows) /\
    rows = expected_rows (L := Concrete.ipv4)
             two_networks two_postal_codes one_reachable.
Proof.
  eexists _, _. split; [vm_compute; reflexivity|].
  eapply (calculate_availability_rows (L := Concrete.ipv4)
            two_networks two_postal_codes one_reachable).
  vm_compute. reflexivity.
Defined.

(** X9: Addresses of the reachable set that are no host of a listed network do
    not matter: two reachable sets that agree on the hosts of the networks
    give the same result. *)
Theorem calculate_availability_agree `{L : Lib}
    (networks : list string) (postal_codes : gmap string string)
    (R R' : gset string) :
  (forall n N ip,
     n ∈ networks -> ip_network n = Some N -> ip ∈ hosts N ->
     str_address ip ∈ R <-> str_address ip ∈ R') ->
  Availability.calculate_availability networks postal_codes R =
  Availability.calculate_availability networks postal_codes R'.
Proof.
  unfold Availability.calculate_availability.
  generalize (([], []) : Availability.aggregate) as st.
  induction networks as [|n networks IH]; intros st Hagree; [done|].
  cbn [Availability.aggregate_networks].
  destruct (ip_network n) as [N|] eqn:HN; [|done].
  destruct (postal_codes !! n) as [pc|]; [|done].
  rewrite (fold_record_host_agree n pc R R').
  - apply IH. intros n' N' ip Hn'. apply Hagree. by right.
  - intros ip Hip. apply (Hagree n N ip); [by left | done | done].
Qed.

Lemma iff_bool_decide (A B : Prop) `{Decision A} `{Decision B} :
  bool_decide A = bool_decide B -> A <-> B.
Proof. intros Heq. by rewrite <- (bool_decide_spec A), Heq, bool_decide_spec. Qed.

Lemma calculate_availability_agree_witness :
  Availability.calculate_availability (L := Concrete.ipv4)
    ["8.8.8.0/30"] two_postal_codes {[ "8.8.8.1" ]} =
  Availability.calculate_availability (L := Concrete.ipv4)
    ["8.8.8.0/30"] two_postal_codes {[ "8.8.8.1"; "9.9.9.9" ]}.
Proof.
  apply (calculate_availability_agree (L := Concrete.ipv4)).
  intros n N ip ->%list_elem_of_singleton HN.
  vm_compute in HN. injection HN as <-.
  revert ip. apply Forall_forall.
  do 2 (constructor;
          [cbn beta; refine (iff_bool_decide _ _ _); vm_compute; reflexivity|]).
  constructor.
Defined.

(** X10: With an empty reachable set every reachable count and every flag is
    zero. *)
Theorem calculate_availability_nothing_reachable `{L : Lib}
    (networks : list string) (postal_codes : gmap string string) stats rows :
  Availability.calculate_availability networks postal_codes ∅
    = Ok (stats, rows) ->
  Forall (fun kv : string * (Z * Z) => kv.2.1 = 0) stats /\
  Forall (fun row => rec_reachable row = 0) rows.
Proof.
  intros Hrun.
  refine (aggregate_networks_invariant
            (fun st => Forall (fun kv : string * (Z * Z) => kv.2.1 = 0) st.1
                       /\ Forall (fun row => rec_reachable row = 0) st.2)
            networks postal_codes ∅ _ ([], []) (stats, rows) _ Hrun).
  - intros n pc st ip [Hstats Hrows]. rewrite record_host_eq. cbn [fst snd].
    assert (reachable_flag ∅ ip = 0) as ->.
    { unfold reachable_flag. rewrite bool_decide_eq_false_2; [done|].
      apply not_elem_of_empty. }
    split.
    + apply (Forall_update (fun c : Z * Z => c.1 = 0)); [done | | done].
      intros [r t]; cbn. lia.
    + apply Forall_app. split; [done|]. by repeat constructor.
  - split; constructor.
Qed.

Lemma calculate_availability_nothing_reachable_witness :
  exists stats rows,
    Availability.calculate_availability (L := Concrete.ipv4)
      two_networks two_postal_codes ∅ = Ok (stats, rows) /\
    Forall (fun kv : string * (Z * Z) => kv.2.1 = 0) stats.
Proof.
  eexists _, _. split; [vm_compute; reflexivity|].
  eapply (calculate_availability_nothing_reachable (L := Concrete.ipv4)
            two_networks two_postal_codes).
  vm_compute. reflexivity.
Defined.

(** X11: In the statistics that the aggregator returns no reachable count
    exceeds its total, none is negative, and every total is at least one: a
    postal code is listed only when a host was recorded for it. *)
Theorem calculate_availability_bounds `{L : Lib}
    (networks : list string) (postal_codes : gmap string string)
    (reachable_ips : gset string) stats rows :
  Availability.calculate_availability networks postal_codes reachable_ips
    = Ok (stats, rows) ->
  forall p reachable_count total_count,
    get p stats = Some (reachable_count, total_count) ->
    0 <= reachable_count <= total_count /\ 1 <= total_count.
Proof.
  intros Hrun p r t Hp.
  pose proof (calculate_availability_positive_totals _ _ _ _ _ Hrun) as Hpos.
  exact (get_Forall (fun c : Z * Z => 0 <= c.1 <= c.2 /\ 1 <= c.2)
           p stats (r, t) Hpos Hp).
Qed.

Lemma calculate_availability_bounds_witness :
  0 <= 1 <= 4 /\ 1 <= 4.
Proof.
  refine (calculate_availability_bounds (L := Concrete.ipv4)
            two_networks two_postal_codes one_reachable
            [("98765", (1, 4))]
            [ mkAddressRecord "8.8.8.0/30" "8.8.8.1" "98765" 1;
              mkAddressRecord "8.8.8.0/30" "8.8.8.2" "98765" 0;
              mkAddressRecord "1.1.1.0/30" "1.1.1.1" "98765" 0;
              mkAddressRecord "1.1.1.0/30" "1.1.1.2" "98765" 0 ]
            _ "98765" 1 4 _).
  - vm_compute. reflexivity.
  - reflexivity.
Defined.





(* ===================================================================== *)
(** ** More on the reachability source *)
(* ===================================================================== *)

Section Scan.
Context `{L : Lib}.

(** The loop over the lines starts no process and touches no file. *)
Lemma fold_simulate_network_world lines st :
  spawned (fold_left Availability.simulate_network lines st).2 = spawned st.2
  /\ files (fold_left Availability.simulate_network lines st).2 = files st.2.
Proof.
  revert st. induction lines as [|l lines IH]; intros st; [done|].
  cbn [fold_left]. destruct (IH (Availability.simulate_network st l))
    as [-> ->].
  unfold Availability.simulate_network.
  destruct (bool_decide _); [done|]. by destruct (ip_network l).
Qed.

Lemma simulate_scan_world networks_file w :
  spawned (Availability.simulate_scan networks_file w).2 = spawned w /\
  files (Availability.simulate_scan networks_file w).2 = files w.
Proof.
  unfold Availability.simulate_scan.
  destruct (read_text _ networks_file) as [text|e]; [|done].
  pose proof (fold_simulate_network_world (split newline (strip text))
                (∅, logging LogSimulationMode w)) as Hworld.
  destruct (fold_left _ _ _) as [R' w']. exact Hworld.
Qed.

(** At most three hosts of a line are marked, each of them a host of the
    network of the line at one of the indices 0, 4 and 8. *)
Lemma elem_of_marked (ips : list Address) ip :
  ip ∈ marked ips ->
  exists i : nat, (i = 0 \/ i = 4 \/ i = 8)%nat /\ ips !! i = Some ip.
Proof.
  unfold marked. intros (i & Hi & Hip)%list_elem_of_omap.
  exists i. split; [|done].
  repeat (apply elem_of_cons in Hi as [->|Hi]; [auto|]).
  by apply elem_of_nil in Hi.
Qed.

Lemma length_marked_le (ips : list Address) : (length (marked ips) <= 3)%nat.
Proof.
  unfold marked. cbn [omap list_omap].
  repeat (match goal with |- context [ips !! ?i] => destruct (ips !! i) end);
    cbn; lia.
Qed.

Lemma size_marked_of_line line : (size (marked_of_line line) <= 3)%nat.
Proof.
  unfold marked_of_line. destruct (bool_decide _); [by rewrite size_empty; lia|].
  destruct (ip_network line) as [N|]; [|by rewrite size_empty; lia].
  etrans; [apply size_list_to_set_le|]. rewrite length_fmap.
  apply length_marked_le.
Qed.

Lemma size_union_list_le (sets : list (gset string)) (bound : nat) :
  Forall (fun X => size X <= bound)%nat sets ->
  (size (⋃ sets) <= bound * length sets)%nat.
Proof.
  induction 1 as [|X sets HX _ IH]; cbn [union_list foldr length].
  - rewrite size_empty. lia.
  - change (size (X ∪ ⋃ sets) <= bound * S (length sets))%nat.
    rewrite size_union_alt.
    assert (size (⋃ sets ∖ X) <= size (⋃ sets))%nat
      by (apply subseteq_size, subseteq_difference_l; reflexivity).
    lia.
Qed.

End Scan.

(** The simulated scan changes no file, whether it succeeds or not. *)
Lemma get_zmap_scan_results_simulation_files `{L : Lib} `{P : Subprocess}
    networks_file output_file bandwidth port (w : World) :
  files (Availability.get_zmap_scan_results networks_file output_file
           bandwidth port true w).2 = files w.
Proof.
  unfold Availability.get_zmap_scan_results.
  destruct (Availability.check_networks_file networks_file w); [|done].
  apply simulate_scan_world.
Qed.

(** X13: The simulated scan of a regular file always succeeds, whatever the
    lines hold: blank lines and lines that do not parse add nothing.  It
    returns the marked hosts of the lines, starts no process and leaves the
    files as they are. *)
Theorem get_zmap_scan_results_simulation `{L : Lib} `{P : Subprocess}
    networks_file output_file bandwidth port (w : World) text :
  files w !! networks_file = Some (File text) ->
  exists reachable_ips w',
    Availability.get_zmap_scan_results networks_file output_file bandwidth
      port true w = (Ok reachable_ips, w') /\
    reachable_ips = ⋃ (marked_of_line <$> split newline (strip text)) /\
    spawned w' = spawned w /\ files w' = files w.
Proof.
  intros Hfile.
  destruct (get_zmap_scan_results_simulated networks_file output_file
              bandwidth port w text Hfile) as (R & w' & Hrun & HR & Hsp).
  exists R, w'. repeat split; try done.
  pose proof (get_zmap_scan_results_simulation_files networks_file
                output_file bandwidth port w) as Hfiles.
  by rewrite Hrun in Hfiles.
Qed.

Lemma get_zmap_scan_results_simulation_witness :
  exists reachable_ips w',
    Availability.get_zmap_scan_results (L := Concrete.ipv4)
      (P := Concrete.silent_zmap) "networks.txt" None "10M" 80 true
      networks_world = (Ok reachable_ips, w') /\
    spawned w' = spawned networks_world.
Proof.
  destruct (get_zmap_scan_results_simulation (L := Concrete.ipv4)
              (P := Concrete.silent_zmap) "networks.txt" None "10M" 80
              networks_world (text_of_lines ["8.8.8.0/24"; "1.1.1.0/30"]))
    as (R & w' & Hrun & _ & Hsp & _).
  - vm_compute. reflexivity.
  - by exists R, w'.
Defined.

(** X14: Every text that the simulated scan returns is the text of a usable host
    of a network on a line of the file, at one of the indices 0, 4 and 8 of
    its enumeration; so there are at most three texts per line. *)
Theorem get_zmap_scan_results_simulation_hosts `{L : Lib} `{P : Subprocess}
    networks_file output_file bandwidth port (w w' : World) text
    (reachable_ips : gset string) :
  files w !! networks_file = Some (File text) ->
  Availability.get_zmap_scan_results networks_file output_file bandwidth
    port true w = (Ok reachable_ips, w') ->
  (forall x, x ∈ reachable_ips ->
     exists line N (i : nat) ip,
       line ∈ split newline (strip text) /\ ip_network line = Some N /\
       (i = 0 \/ i = 4 \/ i = 8)%nat /\ hosts N !! i = Some ip /\
       x = str_address ip) /\
  (size reachable_ips <= 3 * length (split newline (strip text)))%nat.
Proof.
  intros Hfile Hrun.
  destruct (get_zmap_scan_results_simulated networks_file output_file
              bandwidth port w text Hfile) as (R & w'' & Hrun' & HR & _).
  rewrite Hrun in Hrun'. injection Hrun' as -> _. subst R. split.
  - intros x (X & (line & -> & Hline)%list_elem_of_fmap & Hx)%elem_of_union_list.
    unfold marked_of_line in Hx.
    destruct (bool_decide _); [by apply elem_of_empty in Hx|].
    destruct (ip_network line) as [N|] eqn:HN; [|by apply elem_of_empty in Hx].
    apply elem_of_list_to_set, list_elem_of_fmap in Hx as (ip & -> & Hip).
    apply elem_of_marked in Hip as (i & Hi & Hip).
    by exists line, N, i, ip.
  - etrans; [apply (size_union_list_le _ 3)|].
    + apply Forall_fmap, Forall_forall. intros line _. apply size_marked_of_line.
    + by rewrite length_fmap.
Qed.

Lemma get_zmap_scan_results_simulation_hosts_witness :
  (size ({[ "8.8.8.1"; "8.8.8.5"; "8.8.8.9"; "1.1.1.1" ]} : gset string)
   <= 3 * length (split newline
                    (strip (text_of_lines ["8.8.8.0/24"; "1.1.1.0/30"]))))%nat.
Proof.
  refine (proj2 (get_zmap_scan_results_simulation_hosts (L := Concrete.ipv4)
                   (P := Concrete.silent_zmap) "networks.txt" None "10M" 80
                   networks_world
                   (mkWorld (files networks_world)
                      [LogSimulationMode; LogSimulationDone 4] [])
                   (text_of_lines ["8.8.8.0/24"; "1.1.1.0/30"])
                   {[ "8.8.8.1"; "8.8.8.5"; "8.8.8.9"; "1.1.1.1" ]} _ _)).
  - vm_compute. reflexivity.
  - vm_compute. reflexivity.
Defined.



(** X16: In delegated mode, when the scan tool exits with status 0 and prints
    addresses one per line, each followed by a line break, the call returns
    exactly these addresses. *)
Theorem get_zmap_scan_results_lines `{L : Lib} `{P : Subprocess}
    networks_file output_file bandwidth port (w : World)
    (addresses : list string) stderr files' :
  path_exists w networks_file = true ->
  addresses <> [] -> Forall word addresses ->
  subprocess_run
    (Availability.zmap_command networks_file output_file bandwidth port)
    (files w)
  = (Completed 0 (join (String newline "") addresses +:+ String newline "")
               stderr, files') ->
  (Availability.get_zmap_scan_results networks_file output_file bandwidth
     port false w).1 = Ok (list_to_set addresses).
Proof.
  intros Hexists Hne Hwords Hrun.
  unfold Availability.get_zmap_scan_results, Availability.check_networks_file,
    Availability.zmap_scan.
  rewrite Hexists. cbn [files logging]. rewrite Hrun.
  change (0 =? 0) with true. cbn [fst].
  by rewrite split_strip_lines.
Qed.

Lemma get_zmap_scan_results_lines_witness :
  (Availability.get_zmap_scan_results (L := Concrete.ipv4)
     (P := printing_zmap (text_of_lines ["8.8.8.1"; "8.8.8.3"; ""]))
     "networks.txt" None "10M" 80 false networks_world).1
  = Ok (list_to_set ["8.8.8.1"; "8.8.8.3"]).
Proof.
  apply (get_zmap_scan_results_lines (L := Concrete.ipv4)
           (P := printing_zmap (text_of_lines ["8.8.8.1"; "8.8.8.3"; ""]))
           "networks.txt" None "10M" 80 networks_world
           ["8.8.8.1"; "8.8.8.3"] "" (files networks_world)).
  - vm_compute. reflexivity.
  - discriminate.
  - repeat constructor; discriminate.
  - reflexivity.
Defined.

(* ===================================================================== *)
(** ** The command-line pipeline *)
(* ===================================================================== *)



(** The simulated scan starts no process, whether it succeeds or not. *)
Lemma get_zmap_scan_results_simulation_spawned `{L : Lib} `{P : Subprocess}
    networks_file output_file bandwidth port (w : World) :
  spawned (Availability.get_zmap_scan_results networks_file output_file
             bandwidth port true w).2 = spawned w.
Proof.
  unfold Availability.get_zmap_scan_results.
  destruct (Availability.check_networks_file networks_file w); [|done].
  apply simulate_scan_world.
Qed.


(** X17: [main] never runs the scan tool: it asks for the scan without
    [simulation_mode], so the scan is always simulated. *)
Theorem main_never_runs_the_scan_tool
    `{L : Lib} `{P : Subprocess} `{C : Csv} `{F : FloatOps}
    (args : Availability.Args) (w : World) :
  spawned (Availability.main args w).2 = spawned w.
Proof.
  unfold Availability.main.
  destruct (Availability.process_input_csv _ _ w) as [[networks pcs]|e];
    [|done].
  unfold write_text.
  destruct (files w !! Availability.arg_networks_file args) as [[text|]|];
    [| done |].
  all: match goal with
       | |- context [Availability.get_zmap_scan_results ?f ?o ?b ?p true ?w1] =>
           pose proof (get_zmap_scan_results_simulation_spawned f o b p w1)
             as Hsp;
           destruct (Availability.get_zmap_scan_results f o b p true w1)
             as [[R|e] w2]; exact Hsp
       end.
Qed.



(** The run on the input of the loader examples. *)
Example main_test_suite :
  match Availability.main (L := Concrete.ipv4) (P := Concrete.silent_zmap)
          (C := Concrete.plain_csv) example_args test_suite_world with
  | (Ok run, w') =>
      Availability.run_stats run = [("98765", (3, 254))] /\
      length (Availability.run_export run) = 254%nat /\
      spawned w' = []
  | _ => False
  end.
Proof. vm_compute. repeat split; reflexivity. Qed.

(* ===================================================================== *)
(** ** The visualisation script *)
(* ===================================================================== *)

Lemma rows_of_snoc p (rows : list AddressRecord) row :
  rows_of p (rows ++ [row]) =
  rows_of p rows ++ (if decide (rec_postal_code row = p) then [row] else []).
Proof. unfold rows_of. by rewrite filter_app, filter_cons, filter_nil. Qed.

Lemma flag_sum_snoc p (rows : list AddressRecord) row :
  flag_sum p (rows ++ [row]) =
  flag_sum p rows + (if decide (rec_postal_code row = p)
                     then rec_reachable row else 0).
Proof.
  unfold flag_sum. rewrite rows_of_snoc, foldr_app.
  generalize (rows_of p rows) as l. intros l.
  destruct (decide (rec_postal_code row = p)); cbn [foldr].
  - induction l as [|r l IH]; cbn [foldr]; lia.
  - lia.
Qed.

(** What the direct fold does to the entry of a postal code. *)
Lemma get_fold_row p (d : dict (Z * Z)) row :
  get p (Visualizing.fold_row d row) =
  if decide (rec_postal_code row = p)
  then Some ((default (0, 0) (get p d)).1 + rec_reachable row,
             (default (0, 0) (get p d)).2 + 1)
  else get p d.
Proof.
  unfold Visualizing.fold_row. rewrite update_update.
  destruct (decide (rec_postal_code row = p)) as [<-|Hne].
  - by rewrite get_update_eq.
  - by rewrite get_update_ne.
Qed.

Lemma fold_row_counts (df : list AddressRecord) p :
  get p (fold_left Visualizing.fold_row df []) =
  match rows_of p df with
  | [] => None
  | _ => Some (flag_sum p df, Z.of_nat (length (rows_of p df)))
  end.
Proof.
  induction df as [|row df IH] using rev_ind; [done|].
  rewrite fold_left_app. cbn [fold_left].
  rewrite get_fold_row, IH, flag_sum_snoc, rows_of_snoc.
  destruct (decide (rec_postal_code row = p)) as [Hp|Hp].
  - assert (flag_sum p df = 0 \/ rows_of p df <> []) as Hsum.
    { destruct (rows_of p df) eqn:Hrows; [left | by right].
      unfold flag_sum. by rewrite Hrows. }
    destruct (rows_of p df) as [|r l].
    + destruct Hsum as [-> | ?]; [|done]. reflexivity.
    + cbn [app default from_option id fst snd length].
      do 2 f_equal. rewrite length_app. cbn [length]. lia.
  - rewrite app_nil_r. destruct (rows_of p df); [done|].
    do 2 f_equal. lia.
Qed.

Lemma fold_row_totals (df : list AddressRecord) (stats : dict (Z * Z)) :
  Forall (fun kv : string * (Z * Z) => 1 <= kv.2.2) stats ->
  Forall (fun kv : string * (Z * Z) => 1 <= kv.2.2)
         (fold_left Visualizing.fold_row df stats).
Proof.
  revert stats. induction df as [|row df IH]; intros stats Hpos; [done|].
  cbn [fold_left]. apply IH. unfold Visualizing.fold_row.
  rewrite update_update.
  apply (Forall_update (fun c : Z * Z => 1 <= c.2)); [| |done].
  - cbn. lia.
  - intros [r t]; cbn. lia.
Qed.

(** Flags below the range of a float keep every quotient in range. *)
Lemma fold_row_in_range (df : list AddressRecord) (stats : dict (Z * Z)) :
  Forall (fun row => Z.abs (rec_reachable row) < float_limit) df ->
  Forall (fun kv : string * (Z * Z) =>
            Z.abs kv.2.1 <= kv.2.2 * (float_limit - 1) /\ 1 <= kv.2.2) stats ->
  Forall (fun kv : string * (Z * Z) =>
            Z.abs kv.2.1 <= kv.2.2 * (float_limit - 1) /\ 1 <= kv.2.2)
         (fold_left Visualizing.fold_row df stats).
Proof.
  intros Hdf. revert stats.
  induction Hdf as [|row df Hrow _ IH]; intros stats Hpos; [done|].
  cbn [fold_left]. apply IH. unfold Visualizing.fold_row.
  rewrite update_update.
  apply (Forall_update
           (fun c : Z * Z => Z.abs c.1 <= c.2 * (float_limit - 1) /\ 1 <= c.2));
    [| |done].
  - cbn. lia.
  - intros [r t]; cbn [fst snd].
    rewrite Z.mul_add_distr_r. lia.
Qed.

(** X19: The direct fold on rows whose postal code is a text and whose
    flag is an integer.  Whenever it returns, the entry of a postal code
    holds the sum of the flags and the number of the rows with that code,
    and a code without a row has no entry.  It never divides by zero: the
    only error is the overflow of a logged percentage, and there is none
    when every flag is below the range of a float, as the flags 0 and 1
    are. *)
Theorem direct_fold_counts `{F : FloatOps} (df : list AddressRecord) :
  (Visualizing.calculate_availability df
     = Ok (fold_left Visualizing.fold_row df []) \/
   Visualizing.calculate_availability df = Raise OverflowError) /\
  (forall stats,
     Visualizing.calculate_availability df = Ok stats ->
     forall p,
       get p stats =
       match rows_of p df with
       | [] => None
       | _ => Some (flag_sum p df, Z.of_nat (length (rows_of p df)))
       end) /\
  (Forall (fun row => Z.abs (rec_reachable row) < float_limit) df ->
   Visualizing.calculate_availability df
     = Ok (fold_left Visualizing.fold_row df [])).
Proof.
  assert (Visualizing.calculate_availability df
            = Ok (fold_left Visualizing.fold_row df []) \/
          Visualizing.calculate_availability df = Raise OverflowError)
    as Hrun.
  { unfold Visualizing.calculate_availability.
    destruct (log_percentages_nonzero
                (sorted (fold_left Visualizing.fold_row df [])))
      as [-> | ->]; [|by left|by right].
    apply Forall_sorted.
    eapply Forall_impl; [apply (fold_row_totals df []); constructor|].
    intros [pc [r t]]; cbn. lia. }
  split; [exact Hrun|]. split.
  - intros stats Hstats p.
    destruct Hrun as [Hrun | Hrun]; rewrite Hrun in Hstats; [|done].
    injection Hstats as <-. apply fold_row_counts.
  - intros Hflags. unfold Visualizing.calculate_availability.
    rewrite log_percentages_in_range; [done|].
    apply Forall_sorted.
    eapply Forall_impl; [apply (fold_row_in_range df [] Hflags); constructor|].
    intros [pc [r t]]; cbn [fst snd]. intros [Hr Ht].
    unfold in_float_range. cbn [fst snd]. rewrite (Z.abs_eq t) by lia.
    rewrite Z.mul_sub_distr_l in Hr. lia.
Qed.

Lemma direct_fold_counts_witness :
  Visualizing.calculate_availability (F := Concrete.rational)
    [ mkAddressRecord "8.8.8.0/24" "8.8.8.1" "98765" 1;
      mkAddressRecord "8.8.8.0/24" "8.8.8.2" "98765" 0;
      mkAddressRecord "8.8.8.0/24" "8.8.8.3" "98765" 1 ]
  = Ok [("98765", (2, 3))].
Proof.
  refine (proj2 (proj2 (direct_fold_counts (F := Concrete.rational)
    [ mkAddressRecord "8.8.8.0/24" "8.8.8.1" "98765" 1;
      mkAddressRecord "8.8.8.0/24" "8.8.8.2" "98765" 0;
      mkAddressRecord "8.8.8.0/24" "8.8.8.3" "98765" 1 ])) _).
  repeat constructor; vm_compute; reflexivity.
Defined.

(* ===================================================================== *)
(** ** The charts *)
(* ===================================================================== *)

Section Charts.
Context `{F : FloatOps}.
Implicit Types (stats : dict (Z * Z)) (data : list (string * float)).

Lemma select_data_selected thr stats acc data :
  Visualizing.select_data thr stats acc = Ok data ->
  forall stats0,
    Forall (selected stats0 thr) acc ->
    (forall kv, kv ∈ stats -> kv ∈ stats0) ->
    Forall (selected stats0 thr) data.
Proof.
  revert acc. induction stats as [|[pc [r t]] stats IH]; intros acc.
  - cbn. by intros [= <-].
  - cbn [Visualizing.select_data].
    destruct (percentage_of r t) as [x|e] eqn:Hx; [|done]. cbn.
    intros Hrun stats0 Hacc Hsub. eapply IH; [exact Hrun| |].
    + destruct (fge x thr) eqn:Hge; [|done].
      apply Forall_app. split; [done|]. constructor; [|constructor].
      exists r, t. cbn. split; [apply Hsub; by left | done].
    + intros kv Hkv. apply Hsub. by right.
Qed.

Lemma elem_of_insert_desc (x y : string * float) data :
  y ∈ Visualizing.insert_desc x data <-> y = x \/ y ∈ data.
Proof.
  induction data as [|z data IH]; cbn [Visualizing.insert_desc].
  - rewrite list_elem_of_singleton, elem_of_nil. tauto.
  - destruct (flt x.2 z.2).
    + rewrite !elem_of_cons, IH. tauto.
    + rewrite !elem_of_cons. tauto.
Qed.

Lemma elem_of_sort_desc (y : string * float) data :
  y ∈ Visualizing.sort_desc data <-> y ∈ data.
Proof.
  unfold Visualizing.sort_desc. induction data as [|x data IH]; [done|].
  cbn [foldr]. rewrite elem_of_insert_desc, IH, elem_of_cons. tauto.
Qed.

Lemma length_insert_desc (x : string * float) data :
  length (Visualizing.insert_desc x data) = S (length data).
Proof.
  induction data as [|z data IH]; [done|]. cbn [Visualizing.insert_desc].
  destruct (flt x.2 z.2); cbn [length]; by rewrite ?IH.
Qed.

Section Order.
Hypothesis flt_asym : forall x y : float, flt x y = true -> flt y x = false.

Lemma insert_desc_descending (x : string * float) data :
  descending data.*2 -> descending (Visualizing.insert_desc x data).*2.
Proof.
  induction data as [|y data IH]; [done|].
  intros Hdesc. cbn [Visualizing.insert_desc].
  destruct (flt x.2 y.2) eqn:Hxy.
  - assert (descending data.*2) as Htail
      by (destruct data as [|z data]; [done | by destruct Hdesc]).
    specialize (IH Htail).
    destruct data as [|z data].
    + cbn. split; [by apply flt_asym | done].
    + cbn [Visualizing.insert_desc] in *.
      destruct (flt x.2 z.2).
      * cbn in *. split; [by destruct Hdesc | done].
      * cbn in *. split; [by apply flt_asym | done].
  - cbn in *. split; done.
Qed.

Lemma sort_desc_descending data :
  descending (Visualizing.sort_desc data).*2.
Proof.
  unfold Visualizing.sort_desc. induction data as [|x data IH]; [done|].
  cbn [foldr]. by apply insert_desc_descending.
Qed.

End Order.

Lemma descending_take (values : list float) (k : nat) :
  descending values -> descending (take k values).
Proof.
  revert k. induction values as [|x values IH]; intros k Hdesc.
  - by destruct k.
  - destruct k as [|k]; [done|]. cbn [take].
    destruct values as [|y values]; [by destruct k|].
    destruct Hdesc as [Hxy Hdesc]. specialize (IH k Hdesc).
    destruct k as [|k]; [done|]. cbn [take] in *. by split.
Qed.

End Charts.

(** X22: The bar chart.  With a positive limit the chart has at most that many
    bars; as long as the comparison of two values is not true in both
    directions, no bar is followed by a higher one; and every bar is a postal
    code of the statistics with its percentage, which meets the threshold. *)
Theorem visualize_basic_bar_chart `{F : FloatOps}
    (stats : dict (Z * Z)) output_file (min_threshold : float)
    (max_codes : Z) chart :
  (forall x y : float, flt x y = true -> flt y x = false) ->
  0 < max_codes ->
  Visualizing.visualize_basic_bar stats output_file min_threshold
    (Some max_codes) = Ok (Some chart) ->
  exists data : list (string * float),
    chart_postal_codes chart = data.*1 /\ chart_values chart = data.*2 /\
    chart_output_file chart = output_file /\
    (Z.of_nat (length data) <= max_codes) /\
    descending data.*2 /\
    Forall (selected stats min_threshold) data.
Proof.
  intros Hasym Hpos. unfold Visualizing.visualize_basic_bar.
  destruct (Visualizing.select_data min_threshold stats [])
    as [data|e] eqn:Hdata; [|done]. cbn.
  pose proof (select_data_selected _ _ _ _ Hdata stats
                ltac:(constructor) ltac:(auto)) as Hsel.
  set (sorted := Visualizing.sort_desc data).
  assert (Forall (selected stats min_threshold) sorted) as Hsorted.
  { apply Forall_forall. intros y Hy. unfold sorted in Hy.
    apply (proj1 (elem_of_sort_desc y data)) in Hy.
    by apply (proj1 (Forall_forall _ _) Hsel). }
  pose proof (sort_desc_descending Hasym data) as Hdesc. fold sorted in Hdesc.
  unfold Visualizing.over_limit.
  destruct (Z.eqb_spec max_codes 0) as [|_]; [lia|]. cbn [negb andb].
  destruct (Z.ltb_spec max_codes (Z.of_nat (length sorted))) as [Hlt|Hge].
  - unfold slice_to. destruct (Z.leb_spec 0 max_codes) as [_|]; [|lia].
    destruct (take (Z.to_nat max_codes) sorted) as [|y shown] eqn:Hshown;
      [done|].
    intros [= <-]. exists (y :: shown). cbn [chart_postal_codes chart_values
                                              chart_output_file].
    repeat split; try done.
    + rewrite <- Hshown, length_take. lia.
    + rewrite <- Hshown, fmap_take. by apply descending_take.
    + rewrite <- Hshown. by apply Forall_take.
  - destruct sorted as [|y shown] eqn:Hshown; [done|].
    intros [= <-]. exists (y :: shown). by repeat split.
Qed.

Lemma rational_flt_asym (x y : Q) :
  flt (FloatOps := Concrete.rational) x y = true ->
  flt (FloatOps := Concrete.rational) y x = false.
Proof.
  cbn. intros Hxy. apply negb_true_iff in Hxy. apply negb_false_iff.
  apply Qle_bool_iff. apply Qlt_le_weak, Qnot_le_lt.
  intros Hle. apply Qle_bool_iff in Hle. congruence.
Qed.

Lemma visualize_basic_bar_chart_witness :
  exists (chart : Chart (F := Concrete.rational)) (data : list (string * Q)),
    Visualizing.visualize_basic_bar (F := Concrete.rational) three_codes None
      0%Q (Some 2) = Ok (Some chart) /\
    chart_postal_codes chart = data.*1 /\
    Z.of_nat (length data) <= 2.
Proof.
  eexists.
  destruct (visualize_basic_bar_chart (F := Concrete.rational) three_codes
              None 0%Q 2
              (mkChart (F := Concrete.rational) ["22222"; "33333"]
                       [Qmult (3 # 4) (inject_Z 100);
                        Qmult (2 # 4) (inject_Z 100)] None))
    as (data & Hcodes & _ & _ & Hlen & _).
  - apply rational_flt_asym.
  - lia.
  - reflexivity.
  - exists data. split; [reflexivity|]. split; [exact Hcodes | exact Hlen].
Defined.

(** X23: For statistics in which every quotient reachable / total is
    defined and within the range of a float (so no total is 0), the chart of
    [visualize_response_rates] shows, in the order of the dictionary,
    exactly the postal codes whose percentage meets the threshold; when
    there is none, nothing is drawn and nothing fails. *)
Theorem visualize_response_rates_chart `{F : FloatOps}
    (stats : dict (Z * Z)) output_file (min_threshold : float) :
  Forall (fun kv : string * (Z * Z) =>
            Z.abs kv.2.1 < Z.abs kv.2.2 * float_limit) stats ->
  Availability.visualize_response_rates stats output_file min_threshold =
  Ok (match filter (fun kv => fge (rate kv.2) min_threshold = true) stats with
      | [] => None
      | shown => Some (mkChart shown.*1 ((fun kv => rate kv.2) <$> shown)
                               output_file)
      end).
Proof.
  intros Hnz. unfold Availability.visualize_response_rates.
  assert (forall codes rates,
            Availability.select_rates min_threshold stats codes rates =
            Ok (codes ++ (filter (fun kv => fge (rate kv.2) min_threshold
                                            = true) stats).*1,
                rates ++ ((fun kv => rate kv.2) <$>
                          filter (fun kv => fge (rate kv.2) min_threshold
                                            = true) stats))) as Hsel.
  { induction Hnz as [|[pc [r t]] stats Ht _ IH]; intros codes rates.
    - cbn. by rewrite !app_nil_r.
    - unfold dict. rewrite filter_cons. cbn [Availability.select_rates snd].
      rewrite (percentage_of_in_range r t Ht).
      change (Ok ?x ≫= ?f) with (f x). cbn beta.
      destruct (fge (rate (r, t)) min_threshold) eqn:Hge.
      + rewrite decide_True by done. rewrite IH.
        cbn [fmap list_fmap fst snd]. by rewrite <- !app_assoc.
      + rewrite decide_False by done. apply IH. }
  rewrite (Hsel [] []). cbn.
  by destruct (filter _ stats).
Qed.

Lemma visualize_response_rates_chart_witness :
  Availability.visualize_response_rates (F := Concrete.rational) three_codes
    None (inject_Z 50)
  = Ok (Some (mkChart (F := Concrete.rational) ["22222"; "33333"]
                [Qmult (3 # 4) (inject_Z 100); Qmult (2 # 4) (inject_Z 100)]
                None)).
Proof.
  rewrite (visualize_response_rates_chart (F := Concrete.rational)
             three_codes None (inject_Z 50)).
  - reflexivity.
  - repeat constructor; vm_compute; reflexivity.
Defined.

(* ===================================================================== *)
(** ** The database batches and the results of the service *)
(* ===================================================================== *)

(** The chunks of a list, put together again, are a prefix of the list. *)
Lemma concat_chunks {A} (b m : nat) (l : list A) :
  concat (map (fun i => take b (drop i l))
              (map (fun k => k * b)%nat (seq 0 m)))
  = take (m * b) l.
Proof.
  induction m as [|m IH]; [done|].
  rewrite seq_S, !map_app, concat_app, IH. cbn [map concat Nat.add].
  rewrite app_nil_r, take_take_drop. f_equal. lia.
Qed.

Lemma range_step_bounds (n b : nat) :
  (0 < b)%nat ->
  let m := ((n + b - 1) / b)%nat in
  (n <= m * b /\ (m * b < n + b))%nat.
Proof.
  intros Hb m.
  pose proof (Nat.div_mod_eq (n + b - 1) b) as Hdiv.
  pose proof (Nat.mod_upper_bound (n + b - 1) b ltac:(lia)) as Hmod.
  fold m in Hdiv. nia.
Qed.

(** The batches, put together again, are the results. *)
Lemma concat_batches {A} (results_data : list A) :
  concat (Database.batches results_data) = results_data.
Proof.
  assert (0 < Database.batch_size)%nat as Hb
    by (unfold Database.batch_size; lia).
  unfold Database.batches, Database.range_step.
  generalize dependent Database.batch_size. intros b Hb.
  pose proof (range_step_bounds (length results_data) b Hb) as [Hle Hlt].
  rewrite concat_chunks. by apply take_ge.
Qed.

(** X24: The batches cut the results into consecutive pieces of at most 5000
    results each, none of them empty: nothing is lost, repeated or
    reordered, and no insert is made for an empty list. *)
Theorem batches_partition {A} (results_data : list A) :
  concat (Database.batches results_data) = results_data /\
  Forall (fun batch => 1 <= length batch <= Database.batch_size)%nat
         (Database.batches results_data) /\
  length (Database.batches results_data) =
    ((length results_data + Database.batch_size - 1)
     / Database.batch_size)%nat.
Proof.
  assert (0 < Database.batch_size)%nat as Hb
    by (unfold Database.batch_size; lia).
  unfold Database.batches, Database.range_step.
  generalize dependent Database.batch_size. intros b Hb.
  pose proof (range_step_bounds (length results_data) b Hb) as [Hle Hlt].
  set (m := ((length results_data + b - 1) / b)%nat) in *.
  split; [|split].
  - rewrite concat_chunks. by apply take_ge.
  - apply Forall_forall. intros batch Hbatch.
    apply list_elem_of_fmap in Hbatch as (i & -> & Hi).
    apply list_elem_of_fmap in Hi as (k & -> & Hk).
    apply elem_of_seq in Hk. rewrite length_take, length_drop. nia.
  - by rewrite !length_map, length_seq.
Qed.

Lemma fold_left_inserts (scan_id : Z)
    (bs : list (list Database.ScanResult))
    (table : list Database.scan_results_row) :
  fold_left (fun table batch => table ++ Database.values scan_id batch)
            bs table
  = table ++ Database.values scan_id (concat bs).
Proof.
  revert table. induction bs as [|batch bs IH]; intros table.
  - cbn. by rewrite app_nil_r.
  - cbn [fold_left concat]. rewrite IH. unfold Database.values.
    by rewrite map_app, app_assoc.
Qed.

(** X25: Saving the results appends one row for every result to the table, in
    the order of the results, each with the identifier of the scan, and
    returns the number of results; the rows that were there before stay. *)
Theorem save_scan_results_table (scan_id : Z)
    (results_data : list Database.ScanResult)
    (table : list Database.scan_results_row) :
  Database.save_scan_results scan_id results_data table =
  (length results_data,
   table ++ map (fun r => (scan_id, Database.result_network_id r,
                           Database.result_ip r,
                           Database.result_postal_code r,
                           Database.result_reachable r)) results_data).
Proof.
  unfold Database.save_scan_results. rewrite fold_left_inserts.
  by rewrite concat_batches.
Qed.

Section ServiceResults.
Context `{L : Lib}.

Lemma reachable_flag_decide (R : gset string) ip :
  bool_decide (reachable_flag R ip = 1) = bool_decide (str_address ip ∈ R).
Proof. unfold reachable_flag. by destruct (bool_decide (_ ∈ R)). Qed.

(** The hosts of one network give the same facts on both paths. *)
Lemma fold_result_of_host n pc network_id network_map R
    (ips : list Address) acc (st : Availability.aggregate) :
  network_map !! n = Some network_id ->
  result_facts <$> acc = row_facts network_map <$> st.2 ->
  result_facts <$> fold_left (Api.result_of_host network_id pc R) ips acc
  = row_facts network_map
      <$> (fold_left (Availability.record_host n pc R) ips st).2.
Proof.
  intros Hid. revert acc st.
  induction ips as [|ip ips IH]; intros acc st Hfacts; [done|].
  cbn [fold_left]. apply IH. rewrite record_host_eq. cbn [snd].
  unfold Api.result_of_host. rewrite !fmap_app, Hfacts. f_equal.
  cbn. unfold result_facts, row_facts. cbn.
  by rewrite Hid, reachable_flag_decide.
Qed.

Lemma collect_results_aggregate networks postal_codes network_map R
    acc (st st' : Availability.aggregate) :
  Availability.aggregate_networks networks postal_codes R st = Ok st' ->
  (forall n, n ∈ networks -> is_Some (network_map !! n)) ->
  result_facts <$> acc = row_facts network_map <$> st.2 ->
  exists results,
    Api.collect_results networks postal_codes network_map R acc = Ok results
    /\ result_facts <$> results = row_facts network_map <$> st'.2.
Proof.
  revert acc st. induction networks as [|n networks IH];
    intros acc st Hrun Hids Hfacts.
  - cbn in *. injection Hrun as <-. by exists acc.
  - cbn [Availability.aggregate_networks Api.collect_results] in *.
    destruct (ip_network n) as [N|]; [|done].
    destruct (postal_codes !! n) as [pc|]; [|done].
    destruct (Hids n ltac:(by left)) as [network_id Hid]. rewrite Hid.
    eapply IH; [exact Hrun | |].
    + intros n' Hn'. apply Hids. by right.
    + by apply fold_result_of_host.
Qed.

End ServiceResults.

(** X26: The service and the script agree: for networks that all have an
    identifier, the loop of [run_scan] succeeds whenever the aggregator of
    the script does, and its results are the rows of the export, host by
    host: same address, same postal code, reachable exactly when the flag is
    1, and the identifier of the network of the row. *)
Theorem collect_results_matches_export `{L : Lib}
    (networks : list string) (postal_codes : gmap string string)
    (network_map : gmap string Z) (reachable_ips : gset string) stats rows :
  Availability.calculate_availability networks postal_codes reachable_ips
    = Ok (stats, rows) ->
  (forall n, n ∈ networks -> is_Some (network_map !! n)) ->
  exists results,
    Api.collect_results networks postal_codes network_map reachable_ips []
      = Ok results /\
    result_facts <$> results = row_facts network_map <$> rows.
Proof.
  intros Hrun Hids.
  apply (collect_results_aggregate networks postal_codes network_map
           reachable_ips [] ([], []) (stats, rows) Hrun Hids).
  done.
Qed.

Lemma collect_results_matches_export_witness :
  exists results,
    Api.collect_results (L := Concrete.ipv4) two_networks two_postal_codes
      two_network_ids one_reachable [] = Ok results /\
    length (result_facts <$> results) = 4%nat.
Proof.
  destruct (collect_results_matches_export (L := Concrete.ipv4)
              two_networks two_postal_codes two_network_ids one_reachable
              [("98765", (1, 4))]
              [ mkAddressRecord "8.8.8.0/30" "8.8.8.1" "98765" 1;
                mkAddressRecord "8.8.8.0/30" "8.8.8.2" "98765" 0;
                mkAddressRecord "1.1.1.0/30" "1.1.1.1" "98765" 0;
                mkAddressRecord "1.1.1.0/30" "1.1.1.2" "98765" 0 ])
    as (results & Hrun & Hfacts).
  - vm_compute. reflexivity.
  - intros n Hn.
    apply (Forall_forall (fun n => is_Some (two_network_ids !! n))
                         two_networks); [|exact Hn].
    repeat constructor; eexists; vm_compute; reflexivity.
  - exists results. split; [exact Hrun|]. by rewrite Hfacts.
Defined.

(** X27: A network without identifier makes the loop of [run_scan] fail with the
    [KeyError] of that network, after the networks before it. *)
Theorem collect_results_missing_id `{L : Lib}
    (pre : list string) (n : string) (post : list string)
    (postal_codes : gmap string string) (network_map : gmap string Z)
    (reachable_ips : gset string) :
  Forall (fun n => is_Some (ip_network n) /\ is_Some (postal_codes !! n)
                   /\ is_Some (network_map !! n)) pre ->
  is_Some (ip_network n) -> is_Some (postal_codes !! n) ->
  network_map !! n = None ->
  Api.collect_results (pre ++ n :: post) postal_codes network_map
    reachable_ips [] = Raise (KeyError n).
Proof.
  intros Hpre [N HN] [pc Hpc] Hid. generalize (@nil Database.ScanResult).
  induction Hpre as [|m pre ([M HM] & [pcm Hpcm] & [id Hidm]) _ IH];
    intros acc.
  - cbn [app Api.collect_results]. by rewrite HN, Hpc, Hid.
  - cbn [app Api.collect_results]. rewrite HM, Hpcm, Hidm. apply IH.
Qed.

Lemma collect_results_missing_id_witness :
  Api.collect_results (L := Concrete.ipv4) (["8.8.8.0/30"] ++ "1.1.1.0/30" :: [])
    two_postal_codes {[ "8.8.8.0/30" := 1 ]} one_reachable []
  = Raise (KeyError "1.1.1.0/30").
Proof.
  apply (collect_results_missing_id (L := Concrete.ipv4)).
  - repeat constructor; eexists; vm_compute; reflexivity.
  - eexists. vm_compute. reflexivity.
  - eexists. vm_compute. reflexivity.
  - vm_compute. reflexivity.
Defined.
